(** * GeneticNN: interval-refinement genetic optimizer

    A shallow embedding of [GeneticNN.py]: the interval encoder
    ([getValueInInterval], [getPoint], [getSubInterval]), the fitness
    evaluator ([NNWeightsEvaluator]) and the refinement loop
    ([tuneParameters]); and of [NNFullyConTrainer.py]: the feed dict and
    the parameter layout of the trainer.

    Conventions.
    - The numbers that hold weights, interval bounds and fitnesses (the
      reals of the data model) are exact rationals [Q]; [/] is Python's true
      division, which raises [ZeroDivisionError] on a zero divisor.  The
      rounding of binary floating point and its special values are not
      modelled, and results are compared with [==].
    - Python integers (partition count, sizes, indices) are [Z].
    - An exception is a value [Raise e] of the type [result]; a method that
      mutates an object returns the object it leaves behind. *)

From Stdlib Require Import ZArith QArith Qfield List Bool Lia Lqa.
Import ListNotations.

Set Implicit Arguments.
Unset Strict Implicit.

Open Scope Q_scope.

(** ** Exceptions *)

Inductive PyError : Type :=
| ZeroDivisionError
| ValueError
| TypeError.

Inductive result (A : Type) : Type :=
| Ok (a : A)
| Raise (e : PyError).

Arguments Ok {A} a.
Arguments Raise {A} e.

Definition bind {A B : Type} (r : result A) (k : A -> result B) : result B :=
  match r with
  | Ok a => k a
  | Raise e => Raise e
  end.

Declare Scope py_scope.
Delimit Scope py_scope with py.
Notation "x <- c1 ;; c2" := (bind c1 (fun x => c2))
  (at level 61, c1 at next level, right associativity) : py_scope.
Notation "' pat <- c1 ;; c2" := (bind c1 (fun x => match x with pat => c2 end))
  (at level 61, pat pattern, c1 at next level, right associativity) : py_scope.
Open Scope py_scope.

(** [mapM f l] is the list comprehension [[f(x) for x in l]]: elements are
    computed left to right and the first exception aborts it. *)
Fixpoint mapM {A B : Type} (f : A -> result B) (l : list A) : result (list B) :=
  match l with
  | [] => Ok []
  | x :: l' => y <- f x ;; ys <- mapM f l' ;; Ok (y :: ys)
  end.

(** Python's [a / b] on numbers. *)
Definition py_div (a b : Q) : result Q :=
  if Qeq_bool b 0 then Raise ZeroDivisionError else Ok (a / b).

(** A Python [bool] used as a number: [True] is 1 and [False] is 0. *)
Definition Q_of_bool (b : bool) : Q := inject_Z (Z.b2z b).

(** ** Data model *)

(** [SearchInterval = namedtuple('SearchInterval', ['low', 'high'])] *)
Record SearchInterval : Type := mkSearchInterval { low : Q; high : Q }.

(** [class Config] *)
Record Config : Type := mkConfig {
  numOfIntervalPartitions : Z;
  maxNumOfImproveTries : Z;
  populationSize : Z
}.

Definition Config_default : Config :=
  {| numOfIntervalPartitions := 9;
     maxNumOfImproveTries := 15;
     populationSize := 150 |}.

Definition Individual : Type := list bool.
Definition Point : Type := list Q.

(** ** GeneticNN: the interval encoder *)

Module GeneticNN.

(** The object built by [GeneticNN.__init__]; the log file, when there is
    one, is a handle that is only passed on. *)
Record t : Type := mk {
  searchInterval : SearchInterval;
  logFile : option nat;
  config : Config
}.

(** [GeneticNN.__init__(self, interval, config=Config(), logFile=None)]:
    three attribute assignments, nothing else. *)
Definition init (interval : SearchInterval) (cfg : Config)
    (log : option nat) : result t :=
  Ok {| searchInterval := interval; logFile := log; config := cfg |}.

(** [GeneticNN.getSubInterval(self, interval, subIntervalIdx)] *)
Definition getSubInterval (self : t) (interval : SearchInterval)
    (subIntervalIdx : Z) : result SearchInterval :=
  subIntervalDelta <-
    py_div (high interval - low interval)
           (inject_Z (numOfIntervalPartitions (config self))) ;;
  let lo := low interval + inject_Z subIntervalIdx * subIntervalDelta in
  let hi := lo + subIntervalDelta in
  Ok (mkSearchInterval lo hi).

(** [GeneticNN.getValueInInterval(interval, side, numOfIntervalPartitions)] *)
Definition getValueInInterval (interval : SearchInterval) (side : bool)
    (numOfIntervalPartitions : Z) : result Q :=
  let diff := high interval - low interval in
  q <- py_div diff (inject_Z (numOfIntervalPartitions * 2)) ;;
  let lowSide := low interval + q in
  lowToHighSide <- py_div diff (inject_Z numOfIntervalPartitions) ;;
  Ok (lowSide + Q_of_bool side * lowToHighSide).

(** [GeneticNN.getPoint(individual, intervals, numOfIntervalPartitions)]:
    [zip] stops at the shorter of its two arguments. *)
Definition getPoint (individual : Individual) (intervals : list SearchInterval)
    (numOfIntervalPartitions : Z) : result Point :=
  mapM (fun '(interval, side) =>
          getValueInInterval interval side numOfIntervalPartitions)
       (combine intervals individual).

End GeneticNN.

(** ** NumPy arrays, slices and [np.reshape] *)

(** An [ndarray]: its shape and its elements in row-major order. *)
Record ndarray (A : Type) : Type := mkArray { shape : list Z; data : list A }.

Arguments mkArray {A} shape data.

Definition prodZ (l : list Z) : Z := fold_right Z.mul 1%Z l.
Definition sumZ (l : list Z) : Z := fold_right Z.add 0%Z l.

(** A slice bound [i] of a sequence of length [n], as Python clamps it. *)
Definition py_clamp (n i : Z) : Z :=
  if (i <? 0)%Z then Z.max (i + n) 0 else Z.min i n.

(** [l[start : stop]] *)
Definition py_slice {A : Type} (l : list A) (start stop : Z) : list A :=
  let n := Z.of_nat (length l) in
  let a := py_clamp n start in
  let b := py_clamp n stop in
  firstn (Z.to_nat (b - a)) (skipn (Z.to_nat a) l).

(** [np.reshape(a, newshape)] of a one-dimensional [a]: the element count
    must equal the product of the dimensions; one dimension may be [-1] and
    is then inferred; anything else is a [ValueError]. *)
Definition np_reshape {A : Type} (a : list A) (newshape : list Z)
    : result (ndarray A) :=
  let n := Z.of_nat (length a) in
  if forallb (fun d => 0 <=? d)%Z newshape then
    if (prodZ newshape =? n)%Z then Ok (mkArray newshape a)
    else Raise ValueError
  else if (count_occ Z.eq_dec newshape (-1)%Z =? 1)%nat
          && forallb (fun d => -1 <=? d)%Z newshape then
    let known := prodZ (filter (fun d => negb (d =? -1)%Z) newshape) in
    if (known =? 0)%Z then Raise ValueError
    else if (n mod known =? 0)%Z then
      Ok (mkArray (map (fun d => if (d =? -1)%Z then (n / known)%Z else d)
                       newshape) a)
    else Raise ValueError
  else Raise ValueError.

(** [a.flatten()] of every group, one after the other. *)
Definition flatten {A : Type} (groups : list (ndarray A)) : list A :=
  concat (map (@data A) groups).

(** ** NNWeightsEvaluator *)

Module NNWeightsEvaluator.

(** The attributes set by [NNWeightsEvaluator.__init__]; [model] and
    [dataLabelGenerator] are references into the world the optimizer runs in
    and live there. *)
Record t : Type := mk {
  searchIntervals : list SearchInterval;
  numOfIntervalPartitions : Z;
  weightsShapesList : list (list Z);
  weightsSizesList : list Z
}.

(** [NNWeightsEvaluator.updateSearchIntervals(self, newSearchIntervals)] *)
Definition updateSearchIntervals (self : t)
    (newSearchIntervals : list SearchInterval) : t :=
  {| searchIntervals := newSearchIntervals;
     numOfIntervalPartitions := numOfIntervalPartitions self;
     weightsShapesList := weightsShapesList self;
     weightsSizesList := weightsSizesList self |}.

(** The [for wShape, wSize in zip(...)] loop of [transformWeightVecToList],
    started at [curIdx]. *)
Fixpoint transformLoop {A : Type} (weightsVec : list A)
    (layout : list (list Z * Z)) (curIdx : Z) : result (list (ndarray A)) :=
  match layout with
  | [] => Ok []
  | (wShape, wSize) :: rest =>
      curWeight <-
        np_reshape (py_slice weightsVec curIdx (curIdx + wSize)) wShape ;;
      parametersList <- transformLoop weightsVec rest (curIdx + wSize) ;;
      Ok (curWeight :: parametersList)
  end.

(** [NNWeightsEvaluator.transformWeightVecToList(self, weightsVec)] *)
Definition transformWeightVecToList {A : Type} (self : t)
    (weightsVec : list A) : result (list (ndarray A)) :=
  transformLoop weightsVec
    (combine (weightsShapesList self) (weightsSizesList self)) 0.

(** [transformWeightVecToList(None)]: subscripting [None] is a [TypeError],
    met at the first parameter group. *)
Definition transformWeightVecToList_opt {A : Type} (self : t)
    (weightsVec : option (list A)) : result (list (ndarray A)) :=
  match weightsVec with
  | Some v => transformWeightVecToList self v
  | None =>
      match combine (weightsShapesList self) (weightsSizesList self) with
      | [] => Ok []
      | _ :: _ => Raise TypeError
      end
  end.

End NNWeightsEvaluator.

(** ** The collaborators: model, data supply and search engine *)

(** [class NNGeneticModel]: the template of the models the optimizer tunes,
    with [getParametersInfoList] and [getCELoss] as [tuneParameters] and
    [evaluateFitness] call them.  A method returns the model it leaves
    behind.  [installedParameters] reads the parameters back;
    [updateParameters_installs] says that a successful [updateParameters]
    overwrites them with its argument. *)
Class NNGeneticModel (M Batch : Type) : Type := {
  getParametersInfoList : M -> list (list Z * Z);
  updateParameters : M -> list (ndarray Q) -> result M;
  score : M -> Batch -> result (Q * M);
  getCELoss : M -> Batch -> result (Q * M);
  installedParameters : M -> list (ndarray Q);
  updateParameters_installs :
    forall m ps m', updateParameters m ps = Ok m' -> installedParameters m' = ps
}.

(** What the optimizer runs in: the model object and the state behind the
    [dataLabelGenerator] callable. *)
Record World (M D : Type) : Type := mkWorld { model : M; supply : D }.

Arguments mkWorld {M D} model supply.

(** A fitness callback, as the search engine sees [fitnessObj]. *)
Definition Fitness (W : Type) : Type := Individual -> W -> result (Q * W).

(** [GeneticSearch], imported from outside this repository's core: an engine
    state [G] and the three calls [tuneParameters] makes.  The engine may
    call the fitness callback any number of times. *)
Class GeneticSearch (G W : Type) : Type := {
  GeneticSearch_init : Z -> option nat -> Z -> result G;
  constructPopulation : G -> Fitness W -> Z -> W -> result (G * W);
  startEvolution : G -> Fitness W -> Z -> W -> result (G * W);
  getBestSubsetAllTimes : G -> result (Individual * Q)
}.

(** The [dataLabelGenerator] argument: a zero-argument callable that yields
    one batch of examples and labels per call, out of a state [D]. *)
Class DataSupply (D Batch : Type) : Type := {
  dataLabelGenerator : D -> result (Batch * D)
}.

(** A line printed by [GeneticNN.log]. *)
Inductive LogLine : Type :=
| CurrentBestFitness (f : Q)
| CurrentBestPoint (p : Point).

(** [a < b] on numbers. *)
Definition Qlt_bool (a b : Q) : bool := negb (Qle_bool b a).

Section Optimizer.

Context {M Batch D G : Type}.
Context {model_ops : NNGeneticModel M Batch}.
Context {engine : GeneticSearch G (World M D)}.
Context {supply_ops : DataSupply D Batch}.

(** [NNWeightsEvaluator.evaluateFitness(self, individual)]: the model is
    overwritten with the individual's point, one batch is drawn, and the
    model's loss on it is the fitness. *)
Definition evaluateFitness (self : NNWeightsEvaluator.t) : Fitness (World M D) :=
  fun individual w =>
  weights <- GeneticNN.getPoint individual
               (NNWeightsEvaluator.searchIntervals self)
               (NNWeightsEvaluator.numOfIntervalPartitions self) ;;
  parametersList <- NNWeightsEvaluator.transformWeightVecToList self weights ;;
  m1 <- updateParameters (model w) parametersList ;;
  '(batch, d1) <- dataLabelGenerator (supply w) ;;
  '(modelScore, m2) <- score m1 batch ;;
  '(modelCE, m3) <- getCELoss m2 batch ;;
  Ok (modelCE, mkWorld m3 d1).

(** The variables [tuneParameters] carries from one iteration to the next. *)
Record LoopState : Type := mkLoopState {
  GA : G;
  world : World M D;
  searchIntervals : list SearchInterval;
  evaluator : NNWeightsEvaluator.t;
  bestParams : option Individual;
  bestFitness : option Q;
  bestPoint : option Point;
  stdout : list LogLine
}.

(** Lines 58-61: the running best is overwritten when there is none yet or
    the round's fitness is below it. *)
Definition isBetter (bestFitness : option Q) (currentBestFitness : Q) : bool :=
  match bestFitness with
  | None => true
  | Some f => Qlt_bool currentBestFitness f
  end.

(** One iteration of the [for iteration in range(numberOfIterations)] loop.
    Next to the new state it yields the round's
    [(currentBestPoint, currentBestFitness)]. *)
Definition iteration (self : GeneticNN.t) (verbose : bool) (st : LoopState)
    : result (LoopState * (Point * Q)) :=
  let cfg := GeneticNN.config self in
  let fitnessObj := evaluateFitness (evaluator st) in
  '(g1, w1) <- constructPopulation (GA st) fitnessObj (populationSize cfg)
                 (world st) ;;
  '(g2, w2) <- startEvolution g1 fitnessObj (maxNumOfImproveTries cfg) w1 ;;
  '(currentBestParams, currentBestFitness) <- getBestSubsetAllTimes g2 ;;
  currentBestPoint <- GeneticNN.getPoint currentBestParams (searchIntervals st)
                        (numOfIntervalPartitions cfg) ;;
  let better := isBetter (bestFitness st) currentBestFitness in
  let out :=
    if verbose
    then stdout st ++ [CurrentBestFitness currentBestFitness;
                       CurrentBestPoint currentBestPoint]
    else stdout st in
  updatedSearchIntervals <-
    mapM (fun '(interval, paramDir) =>
            GeneticNN.getSubInterval self interval (Z.b2z paramDir))
         (combine (searchIntervals st) currentBestParams) ;;
  Ok ({| GA := g2;
         world := w2;
         searchIntervals := updatedSearchIntervals;
         evaluator := NNWeightsEvaluator.updateSearchIntervals (evaluator st)
                        updatedSearchIntervals;
         bestParams := if better then Some currentBestParams else bestParams st;
         bestFitness := if better then Some currentBestFitness
                        else bestFitness st;
         bestPoint := if better then Some currentBestPoint else bestPoint st;
         stdout := out |},
      (currentBestPoint, currentBestFitness)).

(** [n] iterations in a row, with the outcome of each. *)
Fixpoint iterations (self : GeneticNN.t) (verbose : bool) (n : nat)
    (st : LoopState) : result (LoopState * list (Point * Q)) :=
  match n with
  | O => Ok (st, [])
  | S n' =>
      '(st1, o) <- iteration self verbose st ;;
      '(st2, os) <- iterations self verbose n' st1 ;;
      Ok (st2, o :: os)
  end.

(** [numberOfParameters = np.sum(weightsSizesList)] as [range] takes it:
    the sum of an empty list is the float [0.0], which [range] refuses. *)
Definition numberOfParameters (weightsSizesList : list Z) : result Z :=
  match weightsSizesList with
  | [] => Raise TypeError
  | _ :: _ => Ok (sumZ weightsSizesList)
  end.

(** Lines 36-51: the state in which the loop is entered. *)
Definition setup (self : GeneticNN.t) (w : World M D) : result LoopState :=
  let parametersInfoList := getParametersInfoList (model w) in
  let weightsSizesList := map snd parametersInfoList in
  let weightsShapesList := map fst parametersInfoList in
  n <- numberOfParameters weightsSizesList ;;
  let intervals := repeat (GeneticNN.searchInterval self) (Z.to_nat n) in
  let ev := {| NNWeightsEvaluator.searchIntervals := intervals;
               NNWeightsEvaluator.numOfIntervalPartitions :=
                 numOfIntervalPartitions (GeneticNN.config self);
               NNWeightsEvaluator.weightsShapesList := weightsShapesList;
               NNWeightsEvaluator.weightsSizesList := weightsSizesList |} in
  g <- GeneticSearch_init n (GeneticNN.logFile self)
         (numOfIntervalPartitions (GeneticNN.config self)) ;;
  Ok {| GA := g; world := w; searchIntervals := intervals; evaluator := ev;
        bestParams := None; bestFitness := None; bestPoint := None;
        stdout := [] |}.

(** Line 74: the best point is reshaped and installed into the model. *)
Definition finish (st : LoopState) : result (World M D * list LogLine) :=
  parametersList <-
    NNWeightsEvaluator.transformWeightVecToList_opt (evaluator st)
      (bestPoint st) ;;
  m <- updateParameters (model (world st)) parametersList ;;
  Ok (mkWorld m (supply (world st)), stdout st).

(** [GeneticNN.tuneParameters(self, model, dataLabelGenerator,
    numberOfIterations=5, verbose=True)]: returns nothing; its effect is the
    world it leaves and the lines it printed. *)
Definition tuneParameters (self : GeneticNN.t) (w : World M D)
    (numberOfIterations : Z) (verbose : bool)
    : result (World M D * list LogLine) :=
  st0 <- setup self w ;;
  '(st, _) <- iterations self verbose (Z.to_nat numberOfIterations) st0 ;;
  finish st.

End Optimizer.

(** ** NNFullyConTrainer: the parameters of a fully connected network *)

Module NNFullyConTrainer.

(** A tensor of the graph the feed dict is keyed by: the input placeholder,
    ["Layer{i}/weights:0"] and ["Layer{i}/biases:0"]. *)
Inductive Tensor : Type :=
| InputLayer
| Weights (i : nat)
| Biases (i : nat).

Definition Tensor_eqb (a b : Tensor) : bool :=
  match a, b with
  | InputLayer, InputLayer => true
  | Weights i, Weights j => Nat.eqb i j
  | Biases i, Biases j => Nat.eqb i j
  | _, _ => false
  end.

(** [self.feedDict]: a Python [dict], in insertion order. *)
Definition FeedDict : Type := list (Tensor * ndarray Q).

(** [d.get(k)] *)
Fixpoint dict_get (k : Tensor) (d : FeedDict) : option (ndarray Q) :=
  match d with
  | [] => None
  | (k', v) :: d' => if Tensor_eqb k k' then Some v else dict_get k d'
  end.

(** [d[k] = v]: the value of an existing key is replaced where it stands, a
    new key goes to the end. *)
Fixpoint dict_set (k : Tensor) (v : ndarray Q) (d : FeedDict) : FeedDict :=
  match d with
  | [] => [(k, v)]
  | (k', v') :: d' =>
      if Tensor_eqb k k' then (k', v) :: d' else (k', v') :: dict_set k v d'
  end.

(** The attributes of the trainer that hold its parameters; the graph and
    the session are not modelled. *)
Record t : Type := mk {
  networkShape : list Z;
  parametersInfoList : option (list (list Z * Z));
  feedDict : FeedDict
}.

(** [np.zeros(shape)] *)
Definition np_zeros (shp : list Z) : option (ndarray Q) :=
  if forallb (fun d => 0 <=? d)%Z shp
  then Some (mkArray shp (repeat 0 (Z.to_nat (prodZ shp))))
  else None.

(** The layer indices [range(1, len(self.networkShape))]. *)
Definition layers (ns : list Z) : list nat := seq 1 (length ns - 1).

(** The shapes [WShape] and [bShape] of layer [i] in [buildLayer]. *)
Definition WShape (ns : list Z) (i : nat) : list Z :=
  [nth (i - 1) ns 0%Z; nth i ns 0%Z].

Definition bShape (ns : list Z) (i : nat) : list Z := [nth i ns 0%Z].

(** The feed-dict part of [buildNetwork]: [buildLayer] for every layer,
    which enters zeros for its weights and its biases.  [None] is an
    exception (a negative dimension). *)
Fixpoint buildLayers (ns : list Z) (ls : list nat) (fd : FeedDict)
    : option FeedDict :=
  match ls with
  | [] => Some fd
  | i :: rest =>
      match np_zeros (WShape ns i), np_zeros (bShape ns i) with
      | Some W, Some b =>
          buildLayers ns rest (dict_set (Biases i) b (dict_set (Weights i) W fd))
      | _, _ => None
      end
  end.

(** [NNFullyConTrainer.__init__(self, networkShape)]: [None] is an exception,
    the [IndexError] of [networkShape[0]] on an empty shape or the refusal
    of a negative dimension. *)
Definition init (ns : list Z) : option t :=
  match ns with
  | [] => None
  | n0 :: _ =>
      if (n0 <? 0)%Z then None
      else
        match buildLayers ns (layers ns) [] with
        | Some fd => Some (mk ns None fd)
        | None => None
        end
  end.

(** The [(shape, size)] of the weights and of the biases of layer [i], as
    [tf.shape] and [tf.size] report them. *)
Definition layerInfo (ns : list Z) (i : nat) : list (list Z * Z) :=
  [(WShape ns i, prodZ (WShape ns i)); (bShape ns i, prodZ (bShape ns i))].

(** [NNFullyConTrainer.getParametersInfoList(self)]: computed on the first
    call and kept. *)
Definition getParametersInfoList (self : t) : list (list Z * Z) * t :=
  match parametersInfoList self with
  | Some l => (l, self)
  | None =>
      let l := flat_map (layerInfo (networkShape self))
                        (layers (networkShape self)) in
      (l, mk (networkShape self) (Some l) (feedDict self))
  end.

(** The loop of [updateParameters]; [None] is the [IndexError] of a
    parameter list that is too short. *)
Fixpoint updateLoop (parametersList : list (ndarray Q)) (ls : list nat)
    (fd : FeedDict) : option FeedDict :=
  match ls with
  | [] => Some fd
  | i :: rest =>
      match nth_error parametersList (2 * (i - 1)) with
      | None => None
      | Some W =>
          match nth_error parametersList (2 * (i - 1) + 1) with
          | None => None
          | Some b =>
              updateLoop parametersList rest
                (dict_set (Biases i) b (dict_set (Weights i) W fd))
          end
      end
  end.

(** [NNFullyConTrainer.updateParameters(self, parametersList)] *)
Definition updateParameters (self : t) (parametersList : list (ndarray Q))
    : option t :=
  match updateLoop parametersList (layers (networkShape self)) (feedDict self)
  with
  | Some fd => Some (mk (networkShape self) (parametersInfoList self) fd)
  | None => None
  end.

(** A key the loop over the layers [ls] does not assign. *)
Definition untouched (ls : list nat) (k : Tensor) : Prop :=
  match k with
  | InputLayer => True
  | Weights i | Biases i => ~ In i ls
  end.

End NNFullyConTrainer.

(** ** Results up to equality of rationals *)

(** [returnsQ r v]: the call returned normally, with a number equal to [v]. *)
Definition returnsQ (r : result Q) (v : Q) : Prop :=
  match r with
  | Ok v' => v' == v
  | Raise _ => False
  end.

(** [returnsInterval r lo hi]: the call returned the interval [(lo, hi)]. *)
Definition returnsInterval (r : result SearchInterval) (lo hi : Q) : Prop :=
  match r with
  | Ok i => low i == lo /\ high i == hi
  | Raise _ => False
  end.

(** ** Vocabulary of the properties *)

(** The value [getValueInInterval] computes when it does not raise. *)
Definition valueOf (P : Z) (p : SearchInterval * bool) : Q :=
  low (fst p) + (high (fst p) - low (fst p)) / inject_Z (P * 2)
  + Q_of_bool (snd p) * ((high (fst p) - low (fst p)) / inject_Z P).

(** A parameter group whose shape has no negative dimension and as many
    elements as its declared size, as [tf.shape] and [tf.size] report them. *)
Definition groupConsistent (g : list Z * Z) : bool :=
  forallb (fun d => 0 <=? d)%Z (fst g) && (prodZ (fst g) =? snd g)%Z.

Definition layoutConsistent (layout : list (list Z * Z)) : bool :=
  forallb groupConsistent layout.

(** The layout's total element count. *)
Definition totalCount (layout : list (list Z * Z)) : Z := sumZ (map snd layout).

(** The evaluator [tuneParameters] builds for a layout. *)
Definition evaluatorOf (intervals : list SearchInterval) (P : Z)
    (layout : list (list Z * Z)) : NNWeightsEvaluator.t :=
  {| NNWeightsEvaluator.searchIntervals := intervals;
     NNWeightsEvaluator.numOfIntervalPartitions := P;
     NNWeightsEvaluator.weightsShapesList := map fst layout;
     NNWeightsEvaluator.weightsSizesList := map snd layout |}.


(** ** Stand-ins for the collaborators *)

(** A model that keeps the parameter groups installed into it; its loss is
    the sum of the squares of its parameters. *)
Record KeepingModel : Type := mkKeepingModel {
  layoutOf : list (list Z * Z);
  parametersOf : list (ndarray Q)
}.

Definition sumOfSquares (ps : list (ndarray Q)) : Q :=
  fold_right (fun x acc => x * x + acc) 0 (flatten ps).

#[export] Instance KeepingModel_ops : NNGeneticModel KeepingModel nat := {|
  getParametersInfoList := layoutOf;
  updateParameters := fun m ps => Ok (mkKeepingModel (layoutOf m) ps);
  score := fun m _ => Ok (0, m);
  getCELoss := fun m _ => Ok (sumOfSquares (parametersOf m), m);
  installedParameters := parametersOf;
  updateParameters_installs := fun m ps m' H =>
    match H in (_ = r)
          return (match r with
                  | Ok x => parametersOf x = ps
                  | Raise _ => True
                  end)
    with eq_refl => eq_refl end
|}.

(** A data supply that numbers its batches. *)
#[export] Instance countingSupply : DataSupply nat nat := {|
  dataLabelGenerator := fun d => Ok (d, S d)
|}.


(** A search engine stub that plays a script: round [k] reports the [k]-th
    entry of the script. *)
Definition ScriptedEngine (W : Type) (script : list (Individual * Q))
    : GeneticSearch nat W := {|
  GeneticSearch_init := fun _ _ _ => Ok 0%nat;
  constructPopulation := fun g _ _ w => Ok (S g, w);
  startEvolution := fun g _ _ w => Ok (g, w);
  getBestSubsetAllTimes := fun g =>
    match nth_error script (pred g) with
    | Some r => Ok r
    | None => Raise ValueError
    end
|}.

(** The layout [(2,2):4, (2,):2], the interval (0,10) and 5 partitions. *)
Definition demoLayout : list (list Z * Z) := [([2; 2], 4); ([2], 2)]%Z.

Definition demoWorld : World KeepingModel nat :=
  mkWorld (mkKeepingModel demoLayout []) 0%nat.

Definition demoSelf : GeneticNN.t :=
  GeneticNN.mk (mkSearchInterval 0 10) None (mkConfig 5 15 150).

Definition demoScript : list (Individual * Q) :=
  [ ([true; false; true; false; true; false], 7);
    ([false; false; false; false; false; false], 9);
    ([true; true; true; true; true; true], 4) ].

(** The loop state [setup] gives for the scripted engine. *)
Definition demoState : @LoopState KeepingModel nat nat :=
  {| GA := 0%nat;
     world := demoWorld;
     searchIntervals := repeat (mkSearchInterval 0 10) 6;
     evaluator := evaluatorOf (repeat (mkSearchInterval 0 10) 6) 5 demoLayout;
     bestParams := None;
     bestFitness := None;
     bestPoint := None;
     stdout := [] |}.

(** The lines one round prints. *)
Definition linesOf (verbose : bool) (o : Point * Q) : list LogLine :=
  if verbose then [CurrentBestFitness (snd o); CurrentBestPoint (fst o)]
  else [].


(** A trainer for the network shape (2, 2, 1), as constructed. *)
Definition demoTrainer : NNFullyConTrainer.t :=
  NNFullyConTrainer.mk [2; 2; 1]%Z None
    [(NNFullyConTrainer.Weights 1, mkArray [2; 2]%Z [0; 0; 0; 0]);
     (NNFullyConTrainer.Biases 1, mkArray [2%Z] [0; 0]);
     (NNFullyConTrainer.Weights 2, mkArray [2; 1]%Z [0; 0]);
     (NNFullyConTrainer.Biases 2, mkArray [1%Z] [0])].

(** Nine parameters for it, in four groups. *)
Definition demoGroups : list (ndarray Q) :=
  [mkArray [2; 2]%Z [1; 2; 3; 4]; mkArray [2%Z] [5; 6];
   mkArray [2; 1]%Z [7; 8]; mkArray [1%Z] [9]].

(** * Properties *)

(** ** Division *)

Lemma inject_Z_nonzero (p : Z) : p <> 0%Z -> ~ inject_Z p == 0.
Proof.
  intros Hp H. apply Hp.
  unfold Qeq in H. simpl in H. lia.
Qed.

Lemma py_div_Ok (a b : Q) : ~ b == 0 -> py_div a b = Ok (a / b).
Proof.
  intros Hb. unfold py_div.
  destruct (Qeq_bool b 0) eqn:E; [|reflexivity].
  apply Qeq_bool_eq in E. contradiction.
Qed.

Lemma py_div_zero (a : Q) : py_div a (inject_Z 0) = Raise ZeroDivisionError.
Proof. reflexivity. Qed.

Lemma py_div_inject_Z (a : Q) (p : Z) :
  p <> 0%Z -> py_div a (inject_Z p) = Ok (a / inject_Z p).
Proof. intros Hp. apply py_div_Ok, inject_Z_nonzero, Hp. Qed.

Lemma inject_Z_double (p : Z) : inject_Z (p * 2) == 2 * inject_Z p.
Proof. rewrite inject_Z_mult. ring. Qed.

Lemma inject_Z_pos (p : Z) : (0 < p)%Z -> 0 < inject_Z p.
Proof. intros Hp. unfold Qlt. simpl. lia. Qed.

(** ** Results up to equality *)

Lemma returnsQ_compat (r : result Q) (v v' : Q) :
  v == v' -> returnsQ r v -> returnsQ r v'.
Proof.
  intros Hv. destruct r as [x|e]; simpl; [|exact (fun H => H)].
  intros Hx. rewrite Hx. exact Hv.
Qed.


(** ** The interval encoder *)

Lemma getValueInInterval_Ok (interval : SearchInterval) (side : bool) (P : Z) :
  P <> 0%Z ->
  GeneticNN.getValueInInterval interval side P =
  Ok (low interval + (high interval - low interval) / inject_Z (P * 2)
      + Q_of_bool side * ((high interval - low interval) / inject_Z P)).
Proof.
  intros HP. unfold GeneticNN.getValueInInterval.
  rewrite !py_div_inject_Z by lia. reflexivity.
Qed.

Lemma getSubInterval_Ok (self : GeneticNN.t) (interval : SearchInterval)
    (idx : Z) :
  numOfIntervalPartitions (GeneticNN.config self) <> 0%Z ->
  let delta := (high interval - low interval)
               / inject_Z (numOfIntervalPartitions (GeneticNN.config self)) in
  GeneticNN.getSubInterval self interval idx =
  Ok (mkSearchInterval (low interval + inject_Z idx * delta)
                       (low interval + inject_Z idx * delta + delta)).
Proof.
  intros HP delta. unfold GeneticNN.getSubInterval.
  rewrite py_div_inject_Z by assumption. reflexivity.
Qed.

(** C3: for a partition count [P > 0], [getValueInInterval] returns
    [low + (high-low)/(2P)] for the lower side and that value plus
    [(high-low)/P] for the upper side. *)
Theorem getValueInInterval_formula
    (interval : SearchInterval) (side : bool) (P : Z) :
  (0 < P)%Z ->
  let delta := high interval - low interval in
  returnsQ (GeneticNN.getValueInInterval interval side P)
    (if side
     then low interval + delta / (2 * inject_Z P) + delta / inject_Z P
     else low interval + delta / (2 * inject_Z P)).
Proof.
  intros HP delta.
  rewrite getValueInInterval_Ok by lia. unfold returnsQ.
  fold delta. rewrite inject_Z_double.
  pose proof (inject_Z_pos HP) as Hpos.
  destruct side; unfold Q_of_bool; simpl Z.b2z.
  - field. lra.
  - field. lra.
Qed.

(** The scenario of C3, from the formula: interval (0,10) and 5 partitions
    give 1.0 for the lower side and 3.0 for the upper side. *)
Lemma getValueInInterval_formula_witness :
  (0 < 5)%Z /\
  returnsQ (GeneticNN.getValueInInterval (mkSearchInterval 0 10) false 5) 1 /\
  returnsQ (GeneticNN.getValueInInterval (mkSearchInterval 0 10) true 5) 3.
Proof.
  split; [reflexivity|]. split.
  - apply (@returnsQ_compat _ (0 + (10 - 0) / (2 * inject_Z 5)) 1).
    + vm_compute. reflexivity.
    + exact (@getValueInInterval_formula (mkSearchInterval 0 10) false 5
               eq_refl).
  - apply (@returnsQ_compat _
             (0 + (10 - 0) / (2 * inject_Z 5) + (10 - 0) / inject_Z 5) 3).
    + vm_compute. reflexivity.
    + exact (@getValueInInterval_formula (mkSearchInterval 0 10) true 5
               eq_refl).
Defined.








(** *** getPoint *)

Lemma mapM_Ok {A B : Type} (f : A -> result B) (g : A -> B) (l : list A) :
  (forall x, In x l -> f x = Ok (g x)) -> mapM f l = Ok (map g l).
Proof.
  induction l as [|x l IH]; intros Hf; simpl.
  - reflexivity.
  - rewrite (Hf x) by (left; reflexivity). simpl.
    rewrite IH by (intros y Hy; apply Hf; right; exact Hy).
    reflexivity.
Qed.

Lemma mapM_inv {A B : Type} (f : A -> result B) (l : list A) (r : list B) :
  mapM f l = Ok r -> Forall2 (fun x y => f x = Ok y) l r.
Proof.
  revert r. induction l as [|x l IH]; intros r H; simpl in H.
  - injection H as <-. constructor.
  - destruct (f x) as [y|e] eqn:Ex; simpl in H; [|discriminate].
    destruct (mapM f l) as [ys|e] eqn:El; simpl in H; [|discriminate].
    injection H as <-. constructor; [exact Ex | apply IH; reflexivity].
Qed.

Lemma getPoint_Ok (individual : Individual) (intervals : list SearchInterval)
    (P : Z) :
  P <> 0%Z ->
  GeneticNN.getPoint individual intervals P =
  Ok (map (valueOf P) (combine intervals individual)).
Proof.
  intros HP. unfold GeneticNN.getPoint.
  apply mapM_Ok. intros [interval side] _.
  apply getValueInInterval_Ok, HP.
Qed.

(** C6 as stated fails: an individual of two bits against one interval is
    not rejected; [zip] drops the extra bit and a Point comes back. *)
Lemma getPoint_length_mismatch_counterexample :
  let individual := [true; false] in
  let intervals := [mkSearchInterval 0 10] in
  length individual <> length intervals /\
  exists pt, GeneticNN.getPoint individual intervals 5 = Ok pt /\
             length pt = 1%nat.
Proof.
  simpl. split; [discriminate|].
  eexists. split; [vm_compute; reflexivity | reflexivity].
Qed.

(** C6, amended: a length mismatch raises nothing.  For [P <> 0],
    [getPoint] returns a Point as long as the shorter of the individual and
    the intervals (so of the same length when the two agree), whose element
    [i] is [getValueInInterval] of interval [i] and bit [i]. *)
Theorem getPoint_elementwise (individual : Individual)
    (intervals : list SearchInterval) (P : Z) :
  P <> 0%Z ->
  exists pt,
    GeneticNN.getPoint individual intervals P = Ok pt /\
    length pt = Nat.min (length individual) (length intervals) /\
    (length individual = length intervals -> length pt = length individual) /\
    forall i interval side,
      nth_error intervals i = Some interval ->
      nth_error individual i = Some side ->
      exists v, nth_error pt i = Some v /\
                GeneticNN.getValueInInterval interval side P = Ok v.
Proof.
  intros HP. rewrite getPoint_Ok by exact HP.
  eexists. split; [reflexivity|].
  assert (Hlen : length (map (valueOf P) (combine intervals individual)) =
                 Nat.min (length individual) (length intervals)).
  { rewrite length_map, length_combine. apply Nat.min_comm. }
  split; [exact Hlen|]. split.
  - intros Heq. rewrite Hlen, Heq. apply Nat.min_id.
  - intros i interval side Hi Hs.
    exists (valueOf P (interval, side)). split.
    + rewrite nth_error_map.
      assert (Hc : nth_error (combine intervals individual) i =
                   Some (interval, side)).
      { clear Hlen. revert i individual Hi Hs.
        induction intervals as [|a l IH]; intros [|i] [|b ind] Hi Hs;
          simpl in *; try discriminate.
        - congruence.
        - apply IH; assumption. }
      rewrite Hc. reflexivity.
    + apply getValueInInterval_Ok, HP.
Qed.

(** C6, amended, on two bits against one interval. *)
Lemma getPoint_elementwise_witness :
  exists pt,
    GeneticNN.getPoint [true; false] [mkSearchInterval 0 10] 5 = Ok pt /\
    length pt = Nat.min 2 1 /\
    (2%nat = 1%nat -> length pt = 2%nat) /\
    forall i interval side,
      nth_error [mkSearchInterval 0 10] i = Some interval ->
      nth_error [true; false] i = Some side ->
      exists v, nth_error pt i = Some v /\
                GeneticNN.getValueInInterval interval side 5 = Ok v.
Proof.
  exact (@getPoint_elementwise [true; false] [mkSearchInterval 0 10] 5
           (fun H : 5%Z = 0%Z => ltac:(discriminate H))).
Defined.

(** *** Construction *)

(** C7 as stated fails: a configuration with zero partitions and an interval
    with [low > high] is accepted by the constructor. *)
Lemma init_malformed_counterexample :
  let interval := mkSearchInterval 1 0 in
  let cfg := mkConfig 0 15 150 in
  high interval < low interval /\
  (numOfIntervalPartitions cfg <= 0)%Z /\
  GeneticNN.init interval cfg None = Ok (GeneticNN.mk interval None cfg).
Proof. simpl. repeat split. discriminate. Qed.

(** C7, amended: construction validates nothing and never fails; it stores
    the interval, the configuration and the log file as given.  A partition
    count of zero shows only later, as a [ZeroDivisionError] of
    [getValueInInterval] and [getSubInterval]. *)
Theorem init_stores_unchecked (interval : SearchInterval) (cfg : Config)
    (log : option nat) :
  GeneticNN.init interval cfg log = Ok (GeneticNN.mk interval log cfg) /\
  (forall i side,
     GeneticNN.getValueInInterval i side 0 = Raise ZeroDivisionError) /\
  (forall i idx tries size,
     GeneticNN.getSubInterval
       (GeneticNN.mk interval log (mkConfig 0 tries size)) i idx =
     Raise ZeroDivisionError).
Proof. repeat split. Qed.

(** ** Slices and reshaping *)

Lemma firstn_plus {A : Type} (a b : nat) (l : list A) :
  firstn (a + b) l = firstn a l ++ firstn b (skipn a l).
Proof.
  revert l. induction a as [|a IH]; intros l; simpl.
  - reflexivity.
  - destruct l as [|x l]; simpl.
    + rewrite firstn_nil. reflexivity.
    + rewrite IH. reflexivity.
Qed.

Lemma py_slice_nonneg {A : Type} (l : list A) (a s : Z) :
  (0 <= a)%Z -> (0 <= s)%Z ->
  py_slice l a (a + s) = firstn (Z.to_nat s) (skipn (Z.to_nat a) l).
Proof.
  intros Ha Hs. unfold py_slice, py_clamp.
  destruct (Z.ltb_spec a 0); [lia|].
  destruct (Z.ltb_spec (a + s) 0); [lia|].
  set (n := Z.of_nat (length l)).
  destruct (Z_le_gt_dec a n) as [Han|Han].
  - rewrite (Z.min_l a n) by lia.
    assert (Hlen : length (skipn (Z.to_nat a) l) = Z.to_nat (n - a)).
    { rewrite length_skipn. unfold n. lia. }
    destruct (Z_le_gt_dec (a + s) n) as [Hb|Hb].
    + rewrite (Z.min_l (a + s) n) by lia. f_equal. lia.
    + rewrite (Z.min_r (a + s) n) by lia.
      rewrite (firstn_all2 (n := Z.to_nat s)) by (rewrite Hlen; lia).
      apply firstn_all2. rewrite Hlen. lia.
  - rewrite (Z.min_r a n), (Z.min_r (a + s) n) by lia.
    rewrite Z.sub_diag. simpl firstn.
    rewrite (skipn_all2 (n := Z.to_nat a)) by (unfold n in Han; lia).
    rewrite firstn_nil. reflexivity.
Qed.

Lemma np_reshape_data {A : Type} (a : list A) (s : list Z) (arr : ndarray A) :
  np_reshape a s = Ok arr -> data arr = a.
Proof.
  unfold np_reshape. intros H.
  repeat match type of H with
         | (if ?c then _ else _) = _ => destruct c
         end; try discriminate; injection H as <-; reflexivity.
Qed.

Lemma np_reshape_nonneg {A : Type} (a : list A) (s : list Z) :
  forallb (fun d => 0 <=? d)%Z s = true ->
  np_reshape a s =
  if (prodZ s =? Z.of_nat (length a))%Z then Ok (mkArray s a)
  else Raise ValueError.
Proof. intros H. unfold np_reshape. rewrite H. reflexivity. Qed.

Lemma prodZ_nonneg (s : list Z) :
  forallb (fun d => 0 <=? d)%Z s = true -> (0 <= prodZ s)%Z.
Proof.
  induction s as [|d s IH]; simpl; intros H.
  - lia.
  - apply andb_prop in H. destruct H as [Hd Hs].
    apply Z.leb_le in Hd. specialize (IH Hs). nia.
Qed.

Lemma groupConsistent_inv (shp : list Z) (size : Z) :
  groupConsistent (shp, size) = true ->
  forallb (fun d => 0 <=? d)%Z shp = true /\ prodZ shp = size /\ (0 <= size)%Z.
Proof.
  unfold groupConsistent. simpl. intros H.
  apply andb_prop in H. destruct H as [Hd Hp].
  apply Z.eqb_eq in Hp. split; [exact Hd|]. split; [exact Hp|].
  rewrite <- Hp. apply prodZ_nonneg, Hd.
Qed.

Lemma layoutConsistent_total_nonneg (layout : list (list Z * Z)) :
  layoutConsistent layout = true -> (0 <= totalCount layout)%Z.
Proof.
  induction layout as [|[shp size] rest IH]; simpl; intros H.
  - unfold totalCount. simpl. lia.
  - apply andb_prop in H. destruct H as [Hg Hr].
    apply groupConsistent_inv in Hg. specialize (IH Hr).
    unfold totalCount in *. simpl. lia.
Qed.

Lemma combine_fst_snd {A B : Type} (l : list (A * B)) :
  combine (map fst l) (map snd l) = l.
Proof.
  induction l as [|[a b] l IH]; simpl; [reflexivity | rewrite IH; reflexivity].
Qed.

Lemma layoutConsistent_sizes_nonneg (layout : list (list Z * Z)) :
  layoutConsistent layout = true ->
  Forall (fun n => 0 <= n)%Z (map snd layout).
Proof.
  induction layout as [|[shp size] rest IH]; simpl; intros Hc.
  - constructor.
  - apply andb_prop in Hc. destruct Hc as [Hg Hr].
    apply groupConsistent_inv in Hg. constructor; [lia | apply IH, Hr].
Qed.

(** Whatever the shapes, the groups of a successful reshape are the
    consecutive slices of the vector. *)
Lemma transformLoop_flatten {A : Type} (vec : list A)
    (layout : list (list Z * Z)) :
  Forall (fun n => 0 <= n)%Z (map snd layout) ->
  forall cur groups,
    (0 <= cur)%Z ->
    NNWeightsEvaluator.transformLoop vec layout cur = Ok groups ->
    flatten groups =
    firstn (Z.to_nat (totalCount layout)) (skipn (Z.to_nat cur) vec).
Proof.
  induction layout as [|[shp size] rest IH]; intros Hnn cur groups Hcur H;
    simpl in H.
  - injection H as <-. reflexivity.
  - inversion Hnn as [|x xs Hsize Hrest]; subst.
    destruct (np_reshape (py_slice vec cur (cur + size)) shp) as [arr|e] eqn:Er;
      simpl in H; [|discriminate].
    destruct (NNWeightsEvaluator.transformLoop vec rest (cur + size))
      as [ps|e] eqn:El; simpl in H; [|discriminate].
    injection H as <-.
    apply np_reshape_data in Er.
    rewrite py_slice_nonneg in Er by assumption.
    apply IH in El; [|assumption|lia].
    unfold flatten in *. simpl. rewrite Er, El.
    unfold totalCount. simpl.
    replace (Z.to_nat (size + sumZ (map snd rest)))
      with (Z.to_nat size + Z.to_nat (totalCount rest))%nat.
    + rewrite firstn_plus, skipn_skipn.
      replace (Z.to_nat size + Z.to_nat cur)%nat with (Z.to_nat (cur + size))
        by lia.
      reflexivity.
    + assert (0 <= totalCount rest)%Z.
      { unfold totalCount. clear -Hrest.
        induction Hrest; simpl; lia. }
      unfold totalCount in *. lia.
Qed.

(** On a consistent layout the reshape succeeds exactly when the vector
    reaches the end of the last group. *)
Lemma transformLoop_consistent {A : Type} (vec : list A)
    (layout : list (list Z * Z)) :
  layoutConsistent layout = true ->
  forall cur,
    (0 <= cur <= Z.of_nat (length vec))%Z ->
    ((cur + totalCount layout <= Z.of_nat (length vec))%Z ->
     exists groups,
       NNWeightsEvaluator.transformLoop vec layout cur = Ok groups /\
       map (@shape A) groups = map fst layout) /\
    ((Z.of_nat (length vec) < cur + totalCount layout)%Z ->
     NNWeightsEvaluator.transformLoop vec layout cur = Raise ValueError).
Proof.
  induction layout as [|[shp size] rest IH]; intros Hc cur Hcur.
  - unfold totalCount. simpl. split.
    + intros _. exists []. split; reflexivity.
    + intros Hlt. lia.
  - simpl in Hc. apply andb_prop in Hc. destruct Hc as [Hg Hr].
    apply groupConsistent_inv in Hg. destruct Hg as [Hd [Hp Hs]].
    pose proof (layoutConsistent_total_nonneg Hr) as Htot.
    assert (Htc : totalCount ((shp, size) :: rest) = (size + totalCount rest)%Z)
      by reflexivity.
    rewrite Htc. simpl NNWeightsEvaluator.transformLoop.
    rewrite py_slice_nonneg by lia.
    rewrite np_reshape_nonneg by exact Hd.
    rewrite length_firstn, length_skipn, Hp.
    destruct (Z_le_gt_dec (cur + size) (Z.of_nat (length vec))) as [Hfit|Hover].
    + replace (size =? _)%Z with true by (symmetry; apply Z.eqb_eq; lia).
      simpl bind.
      destruct (IH Hr (cur + size)%Z ltac:(lia)) as [IHok IHerr].
      split.
      * intros Hle. destruct IHok as [groups [Hgs Hshape]]; [lia|].
        rewrite Hgs. simpl. eexists. split; [reflexivity|].
        simpl. rewrite Hshape. reflexivity.
      * intros Hlt. rewrite IHerr by lia. reflexivity.
    + replace (size =? _)%Z with false by (symmetry; apply Z.eqb_neq; lia).
      split; [intros Hle; lia | intros _; reflexivity].
Qed.

Lemma transformWeightVecToList_evaluatorOf {A : Type}
    (intervals : list SearchInterval) (P : Z) (layout : list (list Z * Z))
    (vec : list A) :
  NNWeightsEvaluator.transformWeightVecToList (evaluatorOf intervals P layout) vec
  = NNWeightsEvaluator.transformLoop vec layout 0.
Proof.
  unfold NNWeightsEvaluator.transformWeightVecToList, evaluatorOf. simpl.
  rewrite combine_fst_snd. reflexivity.
Qed.

(** C5 as stated fails: a Point of three elements against a layout of two is
    not rejected; its third element is dropped. *)
Lemma transformWeightVecToList_longer_counterexample :
  let layout := [([2%Z], 2%Z)] in
  let vec := [1; 2; 3] in
  Z.of_nat (length vec) <> totalCount layout /\
  NNWeightsEvaluator.transformWeightVecToList (evaluatorOf [] 9 layout) vec
  = Ok [mkArray [2%Z] [1; 2]].
Proof. split; [discriminate | reflexivity]. Qed.

(** C5, amended: on a layout whose groups each have a shape without negative
    dimensions and as many elements as their count, a Point shorter than the
    total element count is rejected with a [ValueError] and nothing is ever
    padded; a Point at least that long is accepted, and the groups are the
    slices of its first total-count elements, whatever follows them. *)
Theorem transformWeightVecToList_length {A : Type}
    (intervals : list SearchInterval) (P : Z) (layout : list (list Z * Z))
    (vec : list A) :
  layoutConsistent layout = true ->
  let self := evaluatorOf intervals P layout in
  ((Z.of_nat (length vec) < totalCount layout)%Z ->
   NNWeightsEvaluator.transformWeightVecToList self vec = Raise ValueError) /\
  ((totalCount layout <= Z.of_nat (length vec))%Z ->
   exists groups,
     NNWeightsEvaluator.transformWeightVecToList self vec = Ok groups /\
     map (@shape A) groups = map fst layout /\
     flatten groups = firstn (Z.to_nat (totalCount layout)) vec).
Proof.
  intros Hc self. unfold self.
  rewrite transformWeightVecToList_evaluatorOf.
  destruct (@transformLoop_consistent A vec layout Hc 0%Z ltac:(lia))
    as [Hok Herr].
  split.
  - intros Hlt. apply Herr. lia.
  - intros Hle. destruct Hok as [groups [Hg Hs]]; [lia|].
    exists groups. split; [exact Hg|]. split; [exact Hs|].
    apply (@transformLoop_flatten A vec layout) with (cur := 0%Z) in Hg.
    + exact Hg.
    + apply layoutConsistent_sizes_nonneg, Hc.
    + lia.
Qed.

(** C5, amended, on the layout [(2,2):4, (2,):2] and a Point of seven. *)
Lemma transformWeightVecToList_length_witness :
  let layout := [([2; 2], 4); ([2], 2)]%Z in
  let vec := [1; 2; 3; 4; 5; 6; 7] in
  let self := evaluatorOf [] 9 layout in
  layoutConsistent layout = true /\
  ((Z.of_nat (length vec) < totalCount layout)%Z ->
   NNWeightsEvaluator.transformWeightVecToList self vec = Raise ValueError) /\
  ((totalCount layout <= Z.of_nat (length vec))%Z ->
   exists groups,
     NNWeightsEvaluator.transformWeightVecToList self vec = Ok groups /\
     map (@shape Q) groups = map fst layout /\
     flatten groups = firstn (Z.to_nat (totalCount layout)) vec).
Proof.
  split.
  - reflexivity.
  - exact (@transformWeightVecToList_length Q [] 9
             [([2; 2], 4); ([2], 2)]%Z [1; 2; 3; 4; 5; 6; 7] eq_refl).
Defined.

(** The layout scenario of the spec: a Point of six elements becomes a 2x2
    array of elements 0-3 and an array of elements 4-5. *)
Example transformWeightVecToList_2x2_2 :
  NNWeightsEvaluator.transformWeightVecToList
    (evaluatorOf [] 9 [([2; 2], 4); ([2], 2)]%Z) [10; 11; 12; 13; 14; 15]
  = Ok [mkArray [2; 2]%Z [10; 11; 12; 13]; mkArray [2%Z] [14; 15]].
Proof. reflexivity. Qed.

(** C8: for a layout whose element counts sum to the Point's length,
    reshaping the Point into groups and flattening the groups back, in
    layout order, gives the Point back, element for element. *)
Theorem transformWeightVecToList_roundtrip {A : Type}
    (intervals : list SearchInterval) (P : Z) (layout : list (list Z * Z))
    (vec : list A) (groups : list (ndarray A)) :
  Forall (fun n => 0 <= n)%Z (map snd layout) ->
  totalCount layout = Z.of_nat (length vec) ->
  NNWeightsEvaluator.transformWeightVecToList (evaluatorOf intervals P layout) vec
  = Ok groups ->
  flatten groups = vec.
Proof.
  intros Hnn Htot H.
  rewrite transformWeightVecToList_evaluatorOf in H.
  apply (transformLoop_flatten Hnn) in H; [|lia].
  rewrite H, Htot, Nat2Z.id. simpl skipn. apply firstn_all.
Qed.

(** C8 on the layout [(2,2):4, (2,):2] and a Point of six. *)
Lemma transformWeightVecToList_roundtrip_witness :
  let layout := [([2; 2], 4); ([2], 2)]%Z in
  let vec := [10; 11; 12; 13; 14; 15] in
  let groups := [mkArray [2; 2]%Z [10; 11; 12; 13]; mkArray [2%Z] [14; 15]] in
  Forall (fun n => 0 <= n)%Z (map snd layout) /\
  totalCount layout = Z.of_nat (length vec) /\
  NNWeightsEvaluator.transformWeightVecToList (evaluatorOf [] 9 layout) vec
  = Ok groups /\
  flatten groups = vec.
Proof.
  assert (Hnn : Forall (fun n => 0 <= n)%Z (map snd [([2; 2], 4); ([2], 2)]%Z)).
  { repeat constructor; discriminate. }
  split; [exact Hnn|]. split; [reflexivity|]. split; [reflexivity|].
  exact (@transformWeightVecToList_roundtrip Q [] 9
           [([2; 2], 4); ([2], 2)]%Z [10; 11; 12; 13; 14; 15]
           [mkArray [2; 2]%Z [10; 11; 12; 13]; mkArray [2%Z] [14; 15]]
           Hnn eq_refl eq_refl).
Defined.

(** ** The refinement loop *)

Lemma Qlt_bool_true (a b : Q) : Qlt_bool a b = true -> a < b.
Proof.
  unfold Qlt_bool. intros H. apply negb_true_iff in H.
  apply Qnot_le_lt. intros Hle. apply Qle_bool_iff in Hle. congruence.
Qed.

Lemma Qlt_bool_false (a b : Q) : Qlt_bool a b = false -> b <= a.
Proof.
  unfold Qlt_bool. intros H. apply negb_false_iff in H.
  apply Qle_bool_iff, H.
Qed.

Lemma Qlt_bool_lt (a b : Q) : a < b -> Qlt_bool a b = true.
Proof.
  intros H. destruct (Qlt_bool a b) eqn:E; [reflexivity|].
  apply Qlt_bool_false in E. lra.
Qed.

Lemma Qlt_bool_nlt (a b : Q) : ~ a < b -> Qlt_bool a b = false.
Proof.
  intros H. destruct (Qlt_bool a b) eqn:E; [|reflexivity].
  apply Qlt_bool_true in E. contradiction.
Qed.

(** Splits a successful [bind] in a hypothesis into its two halves. *)
Ltac bind_inv H :=
  match type of H with
  | bind ?c _ = Ok _ =>
      let E := fresh "E" in
      destruct c eqn:E; simpl in H; [|discriminate H]
  end.

Section OptimizerProperties.

Context {M Batch D G : Type}.
Context {model_ops : NNGeneticModel M Batch}.
Context {engine : GeneticSearch G (World M D)}.
Context {supply_ops : DataSupply D Batch}.

(** What one iteration does to the running best and to the layout. *)
Lemma iteration_inv (self : GeneticNN.t) (verbose : bool)
    (st st' : LoopState) (pt : Point) (f : Q) :
  iteration self verbose st = Ok (st', (pt, f)) ->
  let better := isBetter (bestFitness st) f in
  bestFitness st' = (if better then Some f else bestFitness st) /\
  bestPoint st' = (if better then Some pt else bestPoint st) /\
  (better = false -> bestParams st' = bestParams st) /\
  NNWeightsEvaluator.weightsShapesList (evaluator st') =
    NNWeightsEvaluator.weightsShapesList (evaluator st) /\
  NNWeightsEvaluator.weightsSizesList (evaluator st') =
    NNWeightsEvaluator.weightsSizesList (evaluator st).
Proof.
  unfold iteration. intros H.
  bind_inv H. destruct a as [g1 w1].
  bind_inv H. destruct a as [g2 w2].
  bind_inv H. destruct a as [params fit].
  bind_inv H. bind_inv H.
  injection H as <- <- <-. simpl.
  repeat split. intros ->. reflexivity.
Qed.

Lemma iterations_S (self : GeneticNN.t) (verbose : bool) (n : nat)
    (st : LoopState) :
  iterations self verbose (S n) st =
  ('(st1, o) <- iteration self verbose st ;;
   '(st2, os) <- iterations self verbose n st1 ;;
   Ok (st2, o :: os)).
Proof. reflexivity. Qed.

(** [S n] iterations are [n] iterations and one more. *)
Lemma iterations_snoc (self : GeneticNN.t) (verbose : bool) (n : nat) :
  forall st st2 tr,
    iterations self verbose (S n) st = Ok (st2, tr) <->
    exists st1 tr1 o,
      iterations self verbose n st = Ok (st1, tr1) /\
      iteration self verbose st1 = Ok (st2, o) /\
      tr = tr1 ++ [o].
Proof.
  induction n as [|n IH]; intros st st2 tr.
  - rewrite iterations_S. split.
    + intros H. destruct (iteration self verbose st) as [[st1 o]|e] eqn:E;
        cbn in H; [|discriminate].
      injection H as <- <-.
      exists st, [], o. repeat split. exact E.
    + intros [st1 [tr1 [o [H0 [H1 ->]]]]].
      injection H0 as <- <-. rewrite H1. reflexivity.
  - rewrite iterations_S. split.
    + intros H. destruct (iteration self verbose st) as [[sa oa]|e] eqn:E;
        cbn [bind] in H; [|discriminate].
      destruct (iterations self verbose (S n) sa) as [[sb ob]|e] eqn:E0;
        cbn [bind] in H; [|discriminate].
      injection H as <- <-.
      apply IH in E0. destruct E0 as [st1 [tr1 [o [H0 [H1 ->]]]]].
      exists st1, (oa :: tr1), o. repeat split; [|exact H1].
      rewrite iterations_S, E. cbn [bind]. rewrite H0. reflexivity.
    + intros [st1 [tr1 [o [H0 [H1 ->]]]]].
      rewrite iterations_S in H0.
      destruct (iteration self verbose st) as [[sa oa]|e] eqn:E;
        cbn [bind] in H0; [|discriminate].
      destruct (iterations self verbose n sa) as [[sb ob]|e] eqn:E0;
        cbn [bind] in H0; [|discriminate].
      injection H0 as <- <-.
      cbn [bind].
      assert (Hs : iterations self verbose (S n) sa = Ok (st2, ob ++ [o])).
      { apply IH. exists sb, ob, o. repeat split; assumption. }
      rewrite Hs. reflexivity.
Qed.

(** C2: the running best is replaced only when the round's fitness is
    strictly below it, or when there is none yet, and is kept otherwise; so
    the best fitness after round [k+1] is at most the one after round [k],
    from whatever state the rounds start. *)
Theorem bestFitness_replaced_only_when_lower
    (self : GeneticNN.t) (verbose : bool) (st0 : LoopState) (k : nat)
    (sk sk1 : LoopState) (trk trk1 : list (Point * Q)) :
  iterations self verbose k st0 = Ok (sk, trk) ->
  iterations self verbose (S k) st0 = Ok (sk1, trk1) ->
  exists pt f,
    iteration self verbose sk = Ok (sk1, (pt, f)) /\
    trk1 = trk ++ [(pt, f)] /\
    ((bestFitness sk = None \/ exists b, bestFitness sk = Some b /\ f < b) ->
     bestFitness sk1 = Some f /\ bestPoint sk1 = Some pt) /\
    (forall b, bestFitness sk = Some b -> ~ f < b ->
       bestFitness sk1 = bestFitness sk /\ bestPoint sk1 = bestPoint sk /\
       bestParams sk1 = bestParams sk) /\
    (forall b, bestFitness sk = Some b ->
       exists b1, bestFitness sk1 = Some b1 /\ b1 <= b).
Proof.
  intros Hk Hk1.
  apply iterations_snoc in Hk1.
  destruct Hk1 as [st1 [tr1 [[pt f] [H0 [H1 ->]]]]].
  rewrite Hk in H0. injection H0 as <- <-.
  exists pt, f. split; [exact H1|]. split; [reflexivity|].
  destruct (iteration_inv H1) as [Hf [Hp [Hpar _]]].
  split; [|split].
  - intros [Hnone | [b [Hb Hlt]]].
    + rewrite Hnone in Hf, Hp. simpl in Hf, Hp. split; assumption.
    + rewrite Hb in Hf, Hp. simpl in Hf, Hp.
      rewrite (Qlt_bool_lt Hlt) in Hf, Hp. split; assumption.
  - intros b Hb Hn.
    assert (Hbetter : isBetter (bestFitness sk) f = false).
    { rewrite Hb. simpl. apply Qlt_bool_nlt, Hn. }
    rewrite Hbetter in Hf, Hp. repeat split; auto.
  - intros b Hb. rewrite Hb in Hf. simpl in Hf.
    destruct (Qlt_bool f b) eqn:E.
    + exists f. split; [exact Hf|]. apply Qlt_le_weak, Qlt_bool_true, E.
    + exists b. split; [exact Hf|]. apply Qle_refl.
Qed.




(** The state in which the loop is entered. *)
Lemma setup_inv (self : GeneticNN.t) (w : World M D) (st0 : LoopState) :
  setup self w = Ok st0 ->
  let layout := getParametersInfoList (model w) in
  layout <> [] /\
  world st0 = w /\
  searchIntervals st0 =
    repeat (GeneticNN.searchInterval self) (Z.to_nat (totalCount layout)) /\
  evaluator st0 =
    evaluatorOf (searchIntervals st0)
      (numOfIntervalPartitions (GeneticNN.config self)) layout /\
  bestFitness st0 = None /\ bestPoint st0 = None /\ bestParams st0 = None.
Proof.
  intros H layout. unfold setup in H. fold layout in H.
  bind_inv H. bind_inv H. injection H as <-. simpl.
  unfold numberOfParameters in E.
  destruct layout as [|g rest] eqn:El; simpl in E; [discriminate|].
  injection E as <-.
  repeat split. discriminate.
Qed.




(** Zero rounds are not refused either: the loop is skipped, no best point
    exists, and the last line fails on it. *)
Lemma tuneParameters_zero_rounds (self : GeneticNN.t) (w : World M D)
    (verbose : bool) (r : World M D * list LogLine) :
  tuneParameters self w 0 verbose <> Ok r.
Proof.
  unfold tuneParameters. intros H.
  bind_inv H. rename a into st0. simpl in H.
  destruct (setup_inv E) as [Hne [_ [_ [Hev [_ [Hp0 _]]]]]].
  unfold finish in H. rewrite Hp0, Hev in H. simpl in H.
  rewrite combine_fst_snd in H.
  destruct (getParametersInfoList (model w)); [contradiction | discriminate].
Qed.

(** A single round does complete when nothing around it fails: a non-empty
    consistent layout, a non-zero partition count, an engine whose three
    calls succeed and return the all-false individual, and a model that
    accepts the update.  The installed groups then flatten to the point. *)
Lemma tuneParameters_single_round_completes
    (self : GeneticNN.t) (w w1 w2 : World M D) (verbose : bool)
    (g0 g1 g2 : G) (f : Q) :
  let layout := getParametersInfoList (model w) in
  let cfg := GeneticNN.config self in
  let P := numOfIntervalPartitions cfg in
  let n := Z.to_nat (totalCount layout) in
  let space := repeat (GeneticNN.searchInterval self) n in
  let fitnessObj := evaluateFitness (evaluatorOf space P layout) in
  layout <> [] ->
  layoutConsistent layout = true ->
  P <> 0%Z ->
  GeneticSearch_init (totalCount layout) (GeneticNN.logFile self) P = Ok g0 ->
  constructPopulation g0 fitnessObj (populationSize cfg) w = Ok (g1, w1) ->
  startEvolution g1 fitnessObj (maxNumOfImproveTries cfg) w1 = Ok (g2, w2) ->
  getBestSubsetAllTimes g2 = Ok (repeat false n, f) ->
  (forall ps, exists m, updateParameters (model w2) ps = Ok m) ->
  exists w' out pt,
    tuneParameters self w 1 verbose = Ok (w', out) /\
    GeneticNN.getPoint (repeat false n) space P = Ok pt /\
    NNWeightsEvaluator.transformWeightVecToList (evaluatorOf space P layout) pt
      = Ok (installedParameters (model w')) /\
    flatten (installedParameters (model w')) = pt.
Proof.
  intros layout cfg P n space fitnessObj Hne Hc HP Hinit Hcp Hse Hbest Hupd.
  pose (pt := map (valueOf P) (combine space (repeat false n))).
  assert (Hpt : GeneticNN.getPoint (repeat false n) space P = Ok pt)
    by (apply getPoint_Ok, HP).
  assert (Hlen : Z.of_nat (length pt) = totalCount layout).
  { unfold pt. rewrite length_map, length_combine.
    unfold space. rewrite !repeat_length, Nat.min_id.
    pose proof (layoutConsistent_total_nonneg Hc). unfold n. lia. }
  destruct (@transformLoop_consistent Q pt layout Hc 0%Z ltac:(lia))
    as [Hok _].
  destruct Hok as [groups [Hgroups _]]; [lia|].
  pose proof (transformLoop_flatten (layoutConsistent_sizes_nonneg Hc)
                (Z.le_refl 0) Hgroups) as Hflat.
  rewrite <- (transformWeightVecToList_evaluatorOf space P) in Hgroups.
  rewrite <- Hlen, Nat2Z.id in Hflat. simpl skipn in Hflat.
  rewrite firstn_all in Hflat.
  destruct (Hupd groups) as [m Hm].
  pose proof (updateParameters_installs Hm) as Hinst.
  exists (mkWorld m (supply w2)).
  eexists. exists pt.
  split; [|split; [exact Hpt | split]].
  - unfold tuneParameters, setup. fold layout.
    assert (Hnum : numberOfParameters (map snd layout) = Ok (totalCount layout)).
    { unfold numberOfParameters, totalCount.
      destruct layout; [contradiction | reflexivity]. }
    rewrite Hnum. cbn [bind]. fold cfg. fold P. rewrite Hinit. cbn [bind].
    change (Z.to_nat 1) with 1%nat. rewrite iterations_S.
    unfold iteration at 1.
    cbn [GA world searchIntervals evaluator bestFitness bestPoint bestParams
         stdout].
    fold cfg. fold P. fold n. fold space.
    change (evaluateFitness _) with fitnessObj.
    rewrite Hcp. cbn [bind]. rewrite Hse. cbn [bind].
    rewrite Hbest. cbn [bind]. rewrite Hpt. cbn [bind].
    rewrite (@mapM_Ok _ _ _
               (fun p : SearchInterval * bool =>
                  let delta := (high (fst p) - low (fst p)) / inject_Z P in
                  mkSearchInterval
                    (low (fst p) + inject_Z (Z.b2z (snd p)) * delta)
                    (low (fst p) + inject_Z (Z.b2z (snd p)) * delta + delta))).
    2:{ intros [interval side] _. apply getSubInterval_Ok. exact HP. }
    cbn [bind iterations isBetter]. unfold finish.
    cbn [GA world searchIntervals evaluator bestFitness bestPoint bestParams
         stdout NNWeightsEvaluator.transformWeightVecToList_opt].
    change (NNWeightsEvaluator.transformWeightVecToList
              (NNWeightsEvaluator.updateSearchIntervals _ _) pt)
      with (NNWeightsEvaluator.transformWeightVecToList
              (evaluatorOf space P layout) pt).
    rewrite Hgroups. cbn [bind model supply]. rewrite Hm. reflexivity.
  - rewrite Hgroups. simpl model. rewrite Hinst. reflexivity.
  - simpl model. rewrite Hinst. exact Hflat.
Qed.

End OptimizerProperties.

(** C2 on the scripted run, between its first and second round: the second
    round's fitness 9 is not below 7 and the best is kept. *)
Lemma bestFitness_replaced_only_when_lower_witness :
  let E := ScriptedEngine (World KeepingModel nat) demoScript in
  exists sk trk sk1 trk1,
    @iterations _ _ _ _ KeepingModel_ops E countingSupply demoSelf true 1
      demoState = Ok (sk, trk) /\
    @iterations _ _ _ _ KeepingModel_ops E countingSupply demoSelf true 2
      demoState = Ok (sk1, trk1) /\
    bestFitness sk = Some 7 /\
    exists pt f,
      @iteration _ _ _ _ KeepingModel_ops E countingSupply demoSelf true sk
        = Ok (sk1, (pt, f)) /\
      trk1 = trk ++ [(pt, f)] /\
      ((bestFitness sk = None \/ exists b, bestFitness sk = Some b /\ f < b) ->
       bestFitness sk1 = Some f /\ bestPoint sk1 = Some pt) /\
      (forall b, bestFitness sk = Some b -> ~ f < b ->
         bestFitness sk1 = bestFitness sk /\ bestPoint sk1 = bestPoint sk /\
         bestParams sk1 = bestParams sk) /\
      (forall b, bestFitness sk = Some b ->
         exists b1, bestFitness sk1 = Some b1 /\ b1 <= b).
Proof.
  intros E.
  eexists. eexists. eexists. eexists.
  split; [vm_compute; reflexivity|].
  split; [vm_compute; reflexivity|].
  split; [reflexivity|].
  apply (@bestFitness_replaced_only_when_lower _ _ _ _ KeepingModel_ops E
           countingSupply demoSelf true demoState 1%nat);
    vm_compute; reflexivity.
Defined.


(** * Further properties of the code *)

(** ** The interval encoder, beyond the claims *)

Lemma Q_of_Z_le (a b : Z) : (a <= b)%Z -> inject_Z a <= inject_Z b.
Proof. intros H. rewrite <- Zle_Qle. exact H. Qed.


(** The width of one slice, with what is known of it. *)
Lemma slice_width (d : Q) (P : Z) :
  (0 < P)%Z ->
  inject_Z P * (d / inject_Z P) == d.
Proof.
  intros HP. pose proof (inject_Z_pos HP) as Hpos. field. lra.
Qed.

Lemma slice_width_nonneg (d : Q) (P : Z) :
  (0 < P)%Z -> 0 <= d -> 0 <= d / inject_Z P.
Proof.
  intros HP Hd. pose proof (inject_Z_pos HP) as Hpos.
  apply Qle_shift_div_l; lra.
Qed.





(** X3: on a zero-width interval, with a non-zero partition count, either
    side resolves to [low] and every sub-interval is the interval itself. *)
Theorem zero_width_interval_is_fixed (self : GeneticNN.t)
    (interval : SearchInterval) (side : bool) (idx : Z) :
  let P := numOfIntervalPartitions (GeneticNN.config self) in
  low interval == high interval ->
  P <> 0%Z ->
  returnsQ (GeneticNN.getValueInInterval interval side P) (low interval) /\
  returnsInterval (GeneticNN.getSubInterval self interval idx)
    (low interval) (high interval).
Proof.
  intros P Heq HP.
  rewrite getValueInInterval_Ok by exact HP.
  rewrite getSubInterval_Ok by (fold P; exact HP). fold P.
  unfold returnsQ, returnsInterval. simpl low. simpl high.
  assert (Hd : high interval - low interval == 0) by lra.
  assert (H1 : (high interval - low interval) / inject_Z P == 0).
  { rewrite Hd. unfold Qdiv. ring. }
  assert (H2 : (high interval - low interval) / inject_Z (P * 2) == 0).
  { rewrite Hd. unfold Qdiv. ring. }
  rewrite H1, H2. repeat split; try ring.
  rewrite <- Heq. ring.
Qed.

(** X3 at the interval (3,3) with 9 partitions. *)
Lemma zero_width_interval_is_fixed_witness :
  let self := GeneticNN.mk (mkSearchInterval 3 3) None Config_default in
  returnsQ (GeneticNN.getValueInInterval (mkSearchInterval 3 3) true 9) 3 /\
  returnsInterval (GeneticNN.getSubInterval self (mkSearchInterval 3 3) 1) 3 3.
Proof.
  exact (@zero_width_interval_is_fixed
           (GeneticNN.mk (mkSearchInterval 3 3) None Config_default)
           (mkSearchInterval 3 3) true 1 eq_refl
           (fun H : 9%Z = 0%Z => ltac:(discriminate H))).
Defined.

(** X4: with at least two partitions and [low <= high], the value of either
    side lies within the interval. *)
Theorem getValueInInterval_inside (interval : SearchInterval) (side : bool)
    (P : Z) :
  low interval <= high interval ->
  (2 <= P)%Z ->
  exists v,
    GeneticNN.getValueInInterval interval side P = Ok v /\
    low interval <= v /\ v <= high interval.
Proof.
  intros Hle HP.
  assert (HP0 : (0 < P)%Z) by lia.
  rewrite getValueInInterval_Ok by lia.
  eexists. split; [reflexivity|].
  pose proof (@slice_width (high interval - low interval) P HP0) as Hw.
  pose proof (@slice_width_nonneg (high interval - low interval) P HP0
                ltac:(lra)) as Hnn.
  assert (Hhalf : 2 * ((high interval - low interval) / inject_Z (P * 2)) ==
                  (high interval - low interval) / inject_Z P).
  { rewrite inject_Z_double. pose proof (inject_Z_pos HP0). field. lra. }
  set (delta := (high interval - low interval) / inject_Z P) in *.
  set (h := (high interval - low interval) / inject_Z (P * 2)) in *.
  assert (H2 : 2 <= inject_Z P) by (apply (Q_of_Z_le (a := 2)); exact HP).
  assert (Hprod : 0 <= (inject_Z P - 2) * delta)
    by (apply Qmult_le_0_compat; lra).
  assert (Hexp : (inject_Z P - 2) * delta == inject_Z P * delta - 2 * delta)
    by ring.
  unfold Q_of_bool. destruct side; simpl Z.b2z;
    [change (inject_Z 1) with 1 | change (inject_Z 0) with 0];
    split; lra.
Qed.

(** X4 at the interval (0,10) with 2 partitions, upper side. *)
Lemma getValueInInterval_inside_witness :
  exists v,
    GeneticNN.getValueInInterval (mkSearchInterval 0 10) true 2 = Ok v /\
    0 <= v /\ v <= 10.
Proof.
  exact (@getValueInInterval_inside (mkSearchInterval 0 10) true 2
           (fun H : (0 ?= 10) = Gt => ltac:(discriminate H))
           (fun H : (2 ?= 2)%Z = Gt => ltac:(discriminate H))).
Defined.



Lemma mapM_app {A B : Type} (f : A -> result B) (l1 l2 : list A) :
  mapM f (l1 ++ l2) =
  (r1 <- mapM f l1 ;; r2 <- mapM f l2 ;; Ok (r1 ++ r2)).
Proof.
  induction l1 as [|x l1 IH]; simpl.
  - destruct (mapM f l2); reflexivity.
  - destruct (f x) as [y|e]; simpl; [|reflexivity].
    rewrite IH. destruct (mapM f l1) as [r1|e]; simpl; [|reflexivity].
    destruct (mapM f l2); reflexivity.
Qed.

Lemma combine_app_same {A B : Type} (l1 l2 : list A) (m1 m2 : list B) :
  length l1 = length m1 ->
  combine (l1 ++ l2) (m1 ++ m2) = combine l1 m1 ++ combine l2 m2.
Proof.
  revert m1. induction l1 as [|x l1 IH]; intros [|y m1] H; simpl in *;
    try discriminate.
  - reflexivity.
  - rewrite IH by lia. reflexivity.
Qed.

(** X6: [getPoint] works coordinate by coordinate: on two individuals laid
    end to end against two interval lists laid end to end, the first pair of
    equal length, it gives the two Points end to end, or the first error. *)
Theorem getPoint_app (ind1 ind2 : Individual)
    (ints1 ints2 : list SearchInterval) (P : Z) :
  length ind1 = length ints1 ->
  GeneticNN.getPoint (ind1 ++ ind2) (ints1 ++ ints2) P =
  (p1 <- GeneticNN.getPoint ind1 ints1 P ;;
   p2 <- GeneticNN.getPoint ind2 ints2 P ;;
   Ok (p1 ++ p2)).
Proof.
  intros Hlen. unfold GeneticNN.getPoint.
  rewrite combine_app_same by (symmetry; exact Hlen).
  apply mapM_app.
Qed.

(** X6 on one coordinate followed by two. *)
Lemma getPoint_app_witness :
  GeneticNN.getPoint ([true] ++ [false; true])
    ([mkSearchInterval 0 10] ++ [mkSearchInterval 0 1; mkSearchInterval 2 4]) 5
  = (p1 <- GeneticNN.getPoint [true] [mkSearchInterval 0 10] 5 ;;
     p2 <- GeneticNN.getPoint [false; true]
             [mkSearchInterval 0 1; mkSearchInterval 2 4] 5 ;;
     Ok (p1 ++ p2)).
Proof.
  exact (@getPoint_app [true] [false; true] [mkSearchInterval 0 10]
           [mkSearchInterval 0 1; mkSearchInterval 2 4] 5 eq_refl).
Defined.

(** X7: the only way [getPoint] fails is a [ZeroDivisionError], and it
    fails exactly when the partition count is zero and there is a coordinate
    to resolve (neither the individual nor the intervals are empty). *)
Theorem getPoint_raises_iff (individual : Individual)
    (intervals : list SearchInterval) (P : Z) (e : PyError) :
  GeneticNN.getPoint individual intervals P = Raise e <->
  e = ZeroDivisionError /\ P = 0%Z /\ individual <> [] /\ intervals <> [].
Proof.
  split.
  - intros H. destruct (Z.eq_dec P 0) as [->|HP].
    + destruct individual as [|b individual], intervals as [|i intervals];
        try discriminate H.
      injection H as <-. repeat split; discriminate.
    + rewrite getPoint_Ok in H by exact HP. discriminate.
  - intros [-> [-> [Hi Hs]]].
    destruct individual as [|b individual]; [contradiction|].
    destruct intervals as [|i intervals]; [contradiction|].
    reflexivity.
Qed.

(** ** Reshaping, beyond the claims *)

Lemma In_firstn {A : Type} (n : nat) (l : list A) (x : A) :
  In x (firstn n l) -> In x l.
Proof.
  intros H. rewrite <- (firstn_skipn n l). apply in_or_app. left. exact H.
Qed.

Lemma In_skipn {A : Type} (n : nat) (l : list A) (x : A) :
  In x (skipn n l) -> In x l.
Proof.
  intros H. rewrite <- (firstn_skipn n l). apply in_or_app. right. exact H.
Qed.

Lemma py_slice_incl {A : Type} (l : list A) (a b : Z) (x : A) :
  In x (py_slice l a b) -> In x l.
Proof.
  unfold py_slice. intros H.
  apply In_firstn in H. apply In_skipn in H. exact H.
Qed.

Lemma transformLoop_elements {A : Type} (vec : list A)
    (layout : list (list Z * Z)) :
  forall cur groups,
    NNWeightsEvaluator.transformLoop vec layout cur = Ok groups ->
    length groups = length layout /\
    forall x, In x (flatten groups) -> In x vec.
Proof.
  induction layout as [|[shp size] rest IH]; intros cur groups H; simpl in H.
  - injection H as <-. split; [reflexivity | intros x []].
  - destruct (np_reshape (py_slice vec cur (cur + size)) shp) as [arr|e] eqn:Er;
      simpl in H; [|discriminate].
    destruct (NNWeightsEvaluator.transformLoop vec rest (cur + size))
      as [ps|e] eqn:El; simpl in H; [|discriminate].
    injection H as <-.
    apply np_reshape_data in Er. destruct (IH _ _ El) as [Hlen Hin].
    split; [simpl; rewrite Hlen; reflexivity|].
    intros x Hx. unfold flatten in Hx. simpl in Hx.
    apply in_app_or in Hx. destruct Hx as [Hx|Hx].
    + rewrite Er in Hx. apply py_slice_incl in Hx. exact Hx.
    + apply Hin. exact Hx.
Qed.

(** X8: a successful [transformWeightVecToList] returns one group per pair
    of the zipped shape and size lists, and every element of every group is
    an element of the vector it was given: nothing is padded or made up. *)
Theorem transformWeightVecToList_elements {A : Type}
    (self : NNWeightsEvaluator.t) (vec : list A) (groups : list (ndarray A)) :
  NNWeightsEvaluator.transformWeightVecToList self vec = Ok groups ->
  length groups =
    Nat.min (length (NNWeightsEvaluator.weightsShapesList self))
            (length (NNWeightsEvaluator.weightsSizesList self)) /\
  forall x, In x (flatten groups) -> In x vec.
Proof.
  unfold NNWeightsEvaluator.transformWeightVecToList. intros H.
  apply transformLoop_elements in H. destruct H as [Hlen Hin].
  split; [rewrite Hlen; apply length_combine | exact Hin].
Qed.

(** X8 on the layout [(2,2):4, (2,):2] and a Point of seven. *)
Lemma transformWeightVecToList_elements_witness :
  let self := evaluatorOf [] 9 demoLayout in
  let groups := [mkArray [2; 2]%Z [10; 11; 12; 13]; mkArray [2%Z] [14; 15]] in
  length groups =
    Nat.min (length (NNWeightsEvaluator.weightsShapesList self))
            (length (NNWeightsEvaluator.weightsSizesList self)) /\
  forall x, In x (flatten groups) -> In x [10; 11; 12; 13; 14; 15; 16].
Proof.
  exact (@transformWeightVecToList_elements Q (evaluatorOf [] 9 demoLayout)
           [10; 11; 12; 13; 14; 15; 16]
           [mkArray [2; 2]%Z [10; 11; 12; 13]; mkArray [2%Z] [14; 15]]
           eq_refl).
Defined.









(** ** The refinement loop, beyond the claims *)





Section LoopProperties.

Context {M Batch D G : Type}.
Context {model_ops : NNGeneticModel M Batch}.
Context {engine : GeneticSearch G (World M D)}.
Context {supply_ops : DataSupply D Batch}.

(** Everything one successful iteration did. *)
Lemma iteration_steps (self : GeneticNN.t) (verbose : bool)
    (st st' : LoopState) (pt : Point) (f : Q) :
  iteration self verbose st = Ok (st', (pt, f)) ->
  exists g individual,
    getBestSubsetAllTimes g = Ok (individual, f) /\
    GeneticNN.getPoint individual (searchIntervals st)
      (numOfIntervalPartitions (GeneticNN.config self)) = Ok pt /\
    mapM (fun '(interval, paramDir) =>
            GeneticNN.getSubInterval self interval (Z.b2z paramDir))
         (combine (searchIntervals st) individual)
      = Ok (searchIntervals st') /\
    evaluator st' =
      NNWeightsEvaluator.updateSearchIntervals (evaluator st)
        (searchIntervals st') /\
    stdout st' = stdout st ++ linesOf verbose (pt, f).
Proof.
  unfold iteration. intros H.
  bind_inv H. destruct a as [g1 w1].
  bind_inv H. destruct a as [g2 w2].
  bind_inv H. destruct a as [params fit].
  bind_inv H. bind_inv H.
  injection H as <- <- <-. simpl.
  exists g2, params. repeat split; try assumption.
  unfold linesOf. destruct verbose; simpl.
  - reflexivity.
  - rewrite app_nil_r. reflexivity.
Qed.

(** X10: the loop runs as many rounds as asked, and what it prints is, when
    [verbose], the fitness and then the point of each round in order, and
    nothing otherwise. *)
Theorem iterations_log (self : GeneticNN.t) (verbose : bool) (n : nat)
    (st0 st : LoopState) (trace : list (Point * Q)) :
  iterations self verbose n st0 = Ok (st, trace) ->
  length trace = n /\
  stdout st = stdout st0 ++ flat_map (linesOf verbose) trace.
Proof.
  revert st0 st trace. induction n as [|n IH]; intros st0 st trace H.
  - simpl in H. injection H as <- <-. simpl.
    rewrite app_nil_r. split; reflexivity.
  - rewrite iterations_S in H.
    destruct (iteration self verbose st0) as [[st1 [pt f]]|e] eqn:E;
      cbn [bind] in H; [|discriminate].
    destruct (iterations self verbose n st1) as [[st2 os]|e] eqn:E0;
      cbn [bind] in H; [|discriminate].
    injection H as <- <-.
    destruct (IH _ _ _ E0) as [Hlen Hout].
    destruct (iteration_steps E) as [_ [_ [_ [_ [_ [_ Hlines]]]]]].
    split; [simpl; rewrite Hlen; reflexivity|].
    rewrite Hout, Hlines. simpl flat_map. rewrite app_assoc. reflexivity.
Qed.

(** X11: the evaluator the search engine scores with is kept in step with
    the loop: after [setup] and any number of rounds it holds the loop's
    current intervals, with the partition count and the layout it was built
    with. *)
Theorem evaluator_in_step (self : GeneticNN.t) (w : World M D)
    (verbose : bool) (n : nat) (st0 st : LoopState)
    (trace : list (Point * Q)) :
  setup self w = Ok st0 ->
  iterations self verbose n st0 = Ok (st, trace) ->
  evaluator st =
    evaluatorOf (searchIntervals st)
      (numOfIntervalPartitions (GeneticNN.config self))
      (getParametersInfoList (model w)).
Proof.
  intros Hs. destruct (setup_inv Hs) as [_ [_ [_ [Hev _]]]].
  clear Hs. revert st0 st trace Hev.
  induction n as [|n IH]; intros st0 st trace Hev H.
  - simpl in H. injection H as <- <-. exact Hev.
  - rewrite iterations_S in H.
    destruct (iteration self verbose st0) as [[st1 [pt f]]|e] eqn:E;
      cbn [bind] in H; [|discriminate].
    destruct (iterations self verbose n st1) as [[st2 os]|e] eqn:E0;
      cbn [bind] in H; [|discriminate].
    injection H as <- <-.
    apply (IH _ _ _ ) in E0; [exact E0|].
    destruct (iteration_steps E) as [_ [_ [_ [_ [_ [Hev1 _]]]]]].
    rewrite Hev1, Hev. reflexivity.
Qed.

(** X12: a round keeps one interval per coordinate it resolved: the new
    interval list and the round's point are both as long as the shorter of
    the old interval list and the individual the engine returned, so the
    list never grows. *)
Theorem iteration_interval_count (self : GeneticNN.t) (verbose : bool)
    (st st' : LoopState) (pt : Point) (f : Q) :
  iteration self verbose st = Ok (st', (pt, f)) ->
  exists g individual,
    getBestSubsetAllTimes g = Ok (individual, f) /\
    length pt = Nat.min (length (searchIntervals st)) (length individual) /\
    length (searchIntervals st') = length pt /\
    (length (searchIntervals st') <= length (searchIntervals st))%nat.
Proof.
  intros H. destruct (iteration_steps H) as [g [ind [Hg [Hp [Hm _]]]]].
  exists g, ind. split; [exact Hg|].
  apply mapM_inv, Forall2_length in Hp.
  apply mapM_inv, Forall2_length in Hm.
  rewrite length_combine in Hp, Hm.
  repeat split; lia.
Qed.








(** X16: asked for no round at all (zero or a negative number), the
    optimizer still sets up, skips the loop and then fails with a
    [TypeError] on the best point it never found. *)
Theorem tuneParameters_no_rounds (self : GeneticNN.t) (w : World M D)
    (numberOfIterations : Z) (verbose : bool) (st0 : LoopState) :
  (numberOfIterations <= 0)%Z ->
  setup self w = Ok st0 ->
  tuneParameters self w numberOfIterations verbose = Raise TypeError.
Proof.
  intros Hn Hs. unfold tuneParameters. rewrite Hs. cbn [bind].
  replace (Z.to_nat numberOfIterations) with 0%nat by lia.
  cbn [iterations bind].
  destruct (setup_inv Hs) as [Hne [_ [_ [Hev [_ [Hp0 _]]]]]].
  unfold finish. rewrite Hp0, Hev. simpl.
  rewrite combine_fst_snd.
  destruct (getParametersInfoList (model w)); [contradiction | reflexivity].
Qed.

(** X17: an evaluation leaves the model changed: when the model's [score]
    and [getCELoss] do not touch its parameters, after [evaluateFitness] the
    model holds the reshaped point of the individual just evaluated. *)
Theorem evaluateFitness_installs (self : NNWeightsEvaluator.t)
    (individual : Individual) (w w' : World M D) (f : Q) :
  (forall m b r m',
     score m b = Ok (r, m') -> installedParameters m' = installedParameters m) ->
  (forall m b r m',
     getCELoss m b = Ok (r, m') ->
     installedParameters m' = installedParameters m) ->
  evaluateFitness self individual w = Ok (f, w') ->
  exists pt,
    GeneticNN.getPoint individual (NNWeightsEvaluator.searchIntervals self)
      (NNWeightsEvaluator.numOfIntervalPartitions self) = Ok pt /\
    NNWeightsEvaluator.transformWeightVecToList self pt =
      Ok (installedParameters (model w')).
Proof.
  intros Hscore Hloss H. unfold evaluateFitness in H.
  bind_inv H. rename a into pt.
  bind_inv H. rename a into groups.
  bind_inv H. rename a into m1.
  bind_inv H. destruct a as [batch d1].
  bind_inv H. destruct a as [sc m2].
  bind_inv H. destruct a as [ce m3].
  injection H as <- <-. simpl.
  exists pt. split; [reflexivity|].
  rewrite (Hloss _ _ _ _ E4), (Hscore _ _ _ _ E3).
  rewrite (updateParameters_installs E1). exact E0.
Qed.

(** X18: an individual that resolves to fewer coordinates than the layout
    needs is rejected by the evaluation with a [ValueError], for a non-zero
    partition count and a layout whose groups have non-negative shapes that
    match their sizes. *)
Theorem evaluateFitness_rejects_short (intervals : list SearchInterval)
    (P : Z) (layout : list (list Z * Z)) (individual : Individual)
    (w : World M D) :
  layoutConsistent layout = true ->
  P <> 0%Z ->
  (Z.of_nat (Nat.min (length individual) (length intervals))
   < totalCount layout)%Z ->
  evaluateFitness (evaluatorOf intervals P layout) individual w =
  Raise ValueError.
Proof.
  intros Hc HP Hshort. unfold evaluateFitness. simpl.
  rewrite getPoint_Ok by exact HP. cbn [bind].
  rewrite (transformWeightVecToList_evaluatorOf intervals P).
  destruct (@transformLoop_consistent Q
              (map (valueOf P) (combine intervals individual)) layout Hc 0%Z)
    as [_ Herr].
  - lia.
  - rewrite Herr; [reflexivity|].
    rewrite length_map, length_combine. lia.
Qed.

End LoopProperties.


(** X10 on the scripted run of two rounds. *)
Lemma iterations_log_witness :
  let E := ScriptedEngine (World KeepingModel nat) demoScript in
  exists st trace,
    @iterations _ _ _ _ KeepingModel_ops E countingSupply demoSelf true 2
      demoState = Ok (st, trace) /\
    length trace = 2%nat /\
    stdout st = stdout demoState ++ flat_map (linesOf true) trace.
Proof.
  intros E. eexists. eexists.
  split; [vm_compute; reflexivity|].
  apply (@iterations_log _ _ _ _ KeepingModel_ops E countingSupply demoSelf
           true 2 demoState).
  vm_compute. reflexivity.
Defined.

(** X11 on the scripted run of two rounds. *)
Lemma evaluator_in_step_witness :
  let E := ScriptedEngine (World KeepingModel nat) demoScript in
  exists st trace,
    @iterations _ _ _ _ KeepingModel_ops E countingSupply demoSelf true 2
      demoState = Ok (st, trace) /\
    evaluator st = evaluatorOf (searchIntervals st) 5 demoLayout.
Proof.
  intros E. eexists. eexists.
  split; [vm_compute; reflexivity|].
  eapply (@evaluator_in_step _ _ _ _ KeepingModel_ops E countingSupply
            demoSelf demoWorld true 2 demoState).
  - vm_compute. reflexivity.
  - vm_compute. reflexivity.
Defined.

(** X12 on a round whose engine returns two bits for six intervals. *)
Lemma iteration_interval_count_witness :
  let E := ScriptedEngine (World KeepingModel nat) [([true; false], 7)] in
  exists st' pt f,
    @iteration _ _ _ _ KeepingModel_ops E countingSupply demoSelf true
      demoState = Ok (st', (pt, f)) /\
    length (searchIntervals st') = 2%nat /\
    exists g individual,
      @getBestSubsetAllTimes _ _ E g = Ok (individual, f) /\
      length pt =
        Nat.min (length (searchIntervals demoState)) (length individual) /\
      length (searchIntervals st') = length pt /\
      (length (searchIntervals st') <= length (searchIntervals demoState))%nat.
Proof.
  intros E. eexists. eexists. eexists.
  split; [vm_compute; reflexivity|].
  split; [reflexivity|].
  apply (@iteration_interval_count _ _ _ _ KeepingModel_ops E countingSupply
           demoSelf true demoState).
  vm_compute. reflexivity.
Defined.




(** X16 on a request for minus three rounds. *)
Lemma tuneParameters_no_rounds_witness :
  let E := ScriptedEngine (World KeepingModel nat) demoScript in
  @setup _ _ _ _ KeepingModel_ops E demoSelf demoWorld = Ok demoState /\
  @tuneParameters _ _ _ _ KeepingModel_ops E countingSupply demoSelf
    demoWorld (-3) true = Raise TypeError.
Proof.
  intros E. split; [reflexivity|].
  apply (@tuneParameters_no_rounds _ _ _ _ KeepingModel_ops E countingSupply
           demoSelf demoWorld (-3) true demoState).
  - vm_compute. discriminate.
  - reflexivity.
Defined.

(** X17 on the keeping model and the all-true individual. *)
Lemma evaluateFitness_installs_witness :
  let ev := evaluatorOf (repeat (mkSearchInterval 0 10) 6) 5 demoLayout in
  exists f w',
    @evaluateFitness _ _ _ KeepingModel_ops countingSupply ev
      (repeat true 6) demoWorld = Ok (f, w') /\
    exists pt,
      GeneticNN.getPoint (repeat true 6)
        (NNWeightsEvaluator.searchIntervals ev)
        (NNWeightsEvaluator.numOfIntervalPartitions ev) = Ok pt /\
      NNWeightsEvaluator.transformWeightVecToList ev pt =
        Ok (installedParameters (model w')).
Proof.
  intros ev. eexists. eexists.
  split; [vm_compute; reflexivity|].
  eapply (@evaluateFitness_installs _ _ _ KeepingModel_ops countingSupply
            ev (repeat true 6) demoWorld).
  - intros m b r m' Hs. injection Hs as _ <-. reflexivity.
  - intros m b r m' Hs. injection Hs as _ <-. reflexivity.
  - vm_compute. reflexivity.
Defined.

(** X18 on two bits against a layout of six elements. *)
Lemma evaluateFitness_rejects_short_witness :
  @evaluateFitness _ _ _ KeepingModel_ops countingSupply
    (evaluatorOf (repeat (mkSearchInterval 0 10) 6) 5 demoLayout)
    [true; false] demoWorld = Raise ValueError.
Proof.
  apply (@evaluateFitness_rejects_short _ _ _ KeepingModel_ops countingSupply
           (repeat (mkSearchInterval 0 10) 6) 5 demoLayout [true; false]
           demoWorld).
  - reflexivity.
  - discriminate.
  - vm_compute. reflexivity.
Defined.

(** ** NNFullyConTrainer *)

Module TrainerFacts.
Import NNFullyConTrainer.

Lemma Tensor_eqb_eq (a b : Tensor) : Tensor_eqb a b = true <-> a = b.
Proof.
  destruct a as [|i|i], b as [|j|j]; simpl; split; intros H;
    try discriminate; try reflexivity.
  - apply Nat.eqb_eq in H. subst. reflexivity.
  - injection H as ->. apply Nat.eqb_refl.
  - apply Nat.eqb_eq in H. subst. reflexivity.
  - injection H as ->. apply Nat.eqb_refl.
Qed.

Lemma Tensor_eqb_refl (a : Tensor) : Tensor_eqb a a = true.
Proof. apply Tensor_eqb_eq. reflexivity. Qed.

Lemma Tensor_eqb_neq (a b : Tensor) : a <> b -> Tensor_eqb a b = false.
Proof.
  intros H. destruct (Tensor_eqb a b) eqn:E; [|reflexivity].
  apply Tensor_eqb_eq in E. contradiction.
Qed.

Lemma dict_get_set_same (k : Tensor) (v : ndarray Q) (d : FeedDict) :
  dict_get k (dict_set k v d) = Some v.
Proof.
  induction d as [|[k' v'] d IH]; simpl.
  - rewrite Tensor_eqb_refl. reflexivity.
  - destruct (Tensor_eqb k k') eqn:E; simpl; rewrite E; [reflexivity | exact IH].
Qed.

Lemma dict_get_set_other (k k' : Tensor) (v : ndarray Q) (d : FeedDict) :
  k <> k' -> dict_get k (dict_set k' v d) = dict_get k d.
Proof.
  intros Hne. induction d as [|[k0 v0] d IH]; simpl.
  - rewrite (Tensor_eqb_neq Hne). reflexivity.
  - destruct (Tensor_eqb k' k0) eqn:E; simpl.
    + apply Tensor_eqb_eq in E. subst k0.
      rewrite (Tensor_eqb_neq Hne). reflexivity.
    + destruct (Tensor_eqb k k0); [reflexivity | exact IH].
Qed.

Lemma updateLoop_spec (ps : list (ndarray Q)) (ls : list nat) :
  NoDup ls ->
  forall fd fd',
    updateLoop ps ls fd = Some fd' ->
    (forall i, In i ls ->
       dict_get (Weights i) fd' = nth_error ps (2 * (i - 1)) /\
       dict_get (Biases i) fd' = nth_error ps (2 * (i - 1) + 1)) /\
    (forall k, untouched ls k -> dict_get k fd' = dict_get k fd).
Proof.
  induction 1 as [|i ls Hni Hnd IH]; intros fd fd' H; cbn [updateLoop] in H.
  - injection H as <-. split; [intros i [] | reflexivity].
  - destruct (nth_error ps (2 * (i - 1))) as [W|] eqn:EW; [|discriminate].
    destruct (nth_error ps (2 * (i - 1) + 1)) as [b|] eqn:Eb; [|discriminate].
    destruct (IH _ _ H) as [Hset Hkeep]. split.
    + intros j [<-|Hj].
      * rewrite (Hkeep (Weights i)), (Hkeep (Biases i)) by exact Hni.
        rewrite dict_get_set_same.
        rewrite dict_get_set_other by discriminate.
        rewrite dict_get_set_same. split; symmetry; assumption.
      * apply Hset, Hj.
    + intros k Hk. rewrite Hkeep.
      * rewrite !dict_get_set_other; [reflexivity | |];
          intros ->; simpl in Hk; apply Hk; left; reflexivity.
      * destruct k; simpl in *; auto.
Qed.

Lemma updateLoop_fails_iff (ps : list (ndarray Q)) (m : nat) :
  forall s fd,
    (1 <= s)%nat ->
    (updateLoop ps (seq s m) fd = None <->
     (0 < m /\ length ps < 2 * (s + m - 1))%nat).
Proof.
  induction m as [|m IH]; intros s fd Hs.
  - simpl. split; [discriminate | intros [H _]; lia].
  - cbn [seq updateLoop].
    destruct (nth_error ps (2 * (s - 1))) as [W|] eqn:EW.
    + destruct (nth_error ps (2 * (s - 1) + 1)) as [b|] eqn:Eb.
      * rewrite IH by lia.
        assert (Hlt : (2 * (s - 1) + 1 < length ps)%nat).
        { apply nth_error_Some. congruence. }
        split.
        -- intros [Hm Hl]. split; lia.
        -- intros [_ Hl]. destruct m; [lia|]. split; lia.
      * apply nth_error_None in Eb. split; [intros _; split; lia | reflexivity].
    + apply nth_error_None in EW. split; [intros _; split; lia | reflexivity].
Qed.

(** X19: [updateParameters] fails (with the [IndexError] of a missing list
    entry) exactly when the parameter list has fewer than two entries per
    layer; a longer list is accepted. *)
Theorem updateParameters_fails_iff (self : t)
    (parametersList : list (ndarray Q)) :
  updateParameters self parametersList = None <->
  (length parametersList < 2 * (length (networkShape self) - 1))%nat.
Proof.
  unfold updateParameters, layers.
  destruct (updateLoop parametersList
              (seq 1 (length (networkShape self) - 1)) (feedDict self))
    as [fd|] eqn:E.
  - split; [discriminate|]. intros Hl.
    assert (Hn : updateLoop parametersList
                   (seq 1 (length (networkShape self) - 1)) (feedDict self)
                 = None).
    { apply updateLoop_fails_iff; lia. }
    congruence.
  - split; [|reflexivity]. intros _.
    apply updateLoop_fails_iff in E; lia.
Qed.

Lemma updateParameters_lookup_aux (self self' : t)
    (parametersList : list (ndarray Q)) :
  updateParameters self parametersList = Some self' ->
  forall i, (1 <= i < length (networkShape self))%nat ->
    dict_get (Weights i) (feedDict self') =
      nth_error parametersList (2 * (i - 1)) /\
    dict_get (Biases i) (feedDict self') =
      nth_error parametersList (2 * (i - 1) + 1).
Proof.
  unfold updateParameters. intros H.
  destruct (updateLoop parametersList (layers (networkShape self))
              (feedDict self)) as [fd|] eqn:E; [|discriminate].
  injection H as <-. simpl.
  apply updateLoop_spec in E; [|apply seq_NoDup].
  destruct E as [Hset _].
  intros i Hi. apply Hset. unfold layers. apply in_seq. lia.
Qed.

(** X20: after a successful [updateParameters] the feed dict maps the
    weights of layer [i] to entry [2(i-1)] of the list and its biases to
    entry [2(i-1)+1], for every layer; the input entry, the network shape
    and the cached layout are as before. *)
Theorem updateParameters_lookup (self self' : t)
    (parametersList : list (ndarray Q)) :
  updateParameters self parametersList = Some self' ->
  (forall i, (1 <= i < length (networkShape self))%nat ->
     dict_get (Weights i) (feedDict self') =
       nth_error parametersList (2 * (i - 1)) /\
     dict_get (Biases i) (feedDict self') =
       nth_error parametersList (2 * (i - 1) + 1)) /\
  dict_get InputLayer (feedDict self') = dict_get InputLayer (feedDict self) /\
  networkShape self' = networkShape self /\
  parametersInfoList self' = parametersInfoList self.
Proof.
  unfold updateParameters. intros H.
  destruct (updateLoop parametersList (layers (networkShape self))
              (feedDict self)) as [fd|] eqn:E; [|discriminate].
  injection H as <-. simpl.
  apply updateLoop_spec in E; [|apply seq_NoDup].
  destruct E as [Hset Hkeep].
  split; [|split; [apply Hkeep; exact I | split; reflexivity]].
  intros i Hi. apply Hset. unfold layers. apply in_seq. lia.
Qed.

Lemma nth_nonneg (ns : list Z) (i : nat) :
  Forall (fun d => 0 <= d)%Z ns -> (0 <= nth i ns 0)%Z.
Proof.
  intros H. revert i. induction H as [|d ns Hd _ IH]; intros [|i]; simpl;
    try lia. apply IH.
Qed.

Lemma layerInfo_consistent (ns : list Z) (i : nat) :
  Forall (fun d => 0 <= d)%Z ns ->
  forallb groupConsistent (layerInfo ns i) = true.
Proof.
  intros H. unfold layerInfo, groupConsistent, WShape, bShape. simpl.
  pose proof (@nth_nonneg ns (i - 1)%nat H) as Ha.
  pose proof (@nth_nonneg ns i H) as Hb.
  rewrite !Z.eqb_refl.
  rewrite (proj2 (Z.leb_le _ _) Ha), (proj2 (Z.leb_le _ _) Hb). reflexivity.
Qed.

Lemma layout_consistent (ns : list Z) (ls : list nat) :
  Forall (fun d => 0 <= d)%Z ns ->
  layoutConsistent (flat_map (layerInfo ns) ls) = true.
Proof.
  intros H. unfold layoutConsistent.
  induction ls as [|i ls IH]; [reflexivity|].
  cbn [flat_map]. rewrite forallb_app, IH, layerInfo_consistent by exact H.
  reflexivity.
Qed.

Lemma layout_length (ns : list Z) (ls : list nat) :
  length (flat_map (layerInfo ns) ls) = (2 * length ls)%nat.
Proof.
  induction ls as [|i ls IH]; [reflexivity|].
  cbn [flat_map]. rewrite length_app, IH. simpl. lia.
Qed.

Lemma layout_nth (ns : list Z) (m : nat) :
  forall s j,
    (j < m)%nat ->
    nth_error (flat_map (layerInfo ns) (seq s m)) (2 * j) =
      Some (WShape ns (s + j), prodZ (WShape ns (s + j))) /\
    nth_error (flat_map (layerInfo ns) (seq s m)) (2 * j + 1) =
      Some (bShape ns (s + j), prodZ (bShape ns (s + j))).
Proof.
  induction m as [|m IH]; intros s j Hj; [lia|].
  cbn [seq flat_map]. destruct j as [|j].
  - rewrite Nat.add_0_r. split; reflexivity.
  - replace (2 * S j)%nat with (S (S (2 * j))) by lia.
    replace (S (S (2 * j)) + 1)%nat with (S (S (2 * j + 1))) by lia.
    replace (s + S j)%nat with (S s + j)%nat by lia.
    apply IH. lia.
Qed.

(** X21: the layout the trainer reports has two groups per layer, each with
    a shape without negative dimensions and as many elements as its size,
    when the network shape has no negative entry; it is computed once, and
    asking again returns the same layout and changes nothing. *)
Theorem getParametersInfoList_layout (self : t) :
  parametersInfoList self = None ->
  Forall (fun d => 0 <= d)%Z (networkShape self) ->
  let r := getParametersInfoList self in
  layoutConsistent (fst r) = true /\
  length (fst r) = (2 * (length (networkShape self) - 1))%nat /\
  getParametersInfoList (snd r) = r /\
  feedDict (snd r) = feedDict self /\
  networkShape (snd r) = networkShape self.
Proof.
  intros Hnone Hnn. unfold getParametersInfoList. rewrite Hnone. simpl.
  split; [apply layout_consistent, Hnn|].
  split; [rewrite layout_length; unfold layers; rewrite length_seq; reflexivity|].
  repeat split.
Qed.

Lemma Forall2_nth_error {A B : Type} (R : A -> B -> Prop) (l : list A)
    (m : list B) (i : nat) (y : B) :
  Forall2 R l m -> nth_error m i = Some y ->
  exists x, nth_error l i = Some x /\ R x y.
Proof.
  intros H. revert i. induction H as [|x y' l m Hxy _ IH]; intros [|i] Hi;
    simpl in *; try discriminate.
  - injection Hi as <-. exists x. split; [reflexivity | exact Hxy].
  - apply IH, Hi.
Qed.

(** X22: the trainer and the evaluator fit together: a vector with as many
    elements as the trainer's layout counts is reshaped without error, the
    trainer accepts the groups, and afterwards the feed dict holds for every
    layer a weight array of shape [(n(i-1), n(i))] and a bias array of
    shape [(n(i),)], which together flatten back to the vector. *)
Theorem trainer_accepts_reshaped (self : t) (intervals : list SearchInterval)
    (P : Z) (vec : list Q) :
  parametersInfoList self = None ->
  Forall (fun d => 0 <= d)%Z (networkShape self) ->
  let layout := fst (getParametersInfoList self) in
  Z.of_nat (length vec) = totalCount layout ->
  exists groups self',
    NNWeightsEvaluator.transformWeightVecToList
      (evaluatorOf intervals P layout) vec = Ok groups /\
    updateParameters self groups = Some self' /\
    flatten groups = vec /\
    forall i, (1 <= i < length (networkShape self))%nat ->
      exists W b,
        dict_get (Weights i) (feedDict self') = Some W /\
        shape W = WShape (networkShape self) i /\
        dict_get (Biases i) (feedDict self') = Some b /\
        shape b = bShape (networkShape self) i.
Proof.
  intros Hnone Hnn layout Hlen.
  assert (Hlay : layout = flat_map (layerInfo (networkShape self))
                            (seq 1 (length (networkShape self) - 1))).
  { unfold layout, getParametersInfoList. rewrite Hnone. reflexivity. }
  assert (Hc : layoutConsistent layout = true)
    by (rewrite Hlay; apply layout_consistent, Hnn).
  assert (Hl : length layout = (2 * (length (networkShape self) - 1))%nat)
    by (rewrite Hlay, layout_length, length_seq; reflexivity).
  destruct (@transformLoop_consistent Q vec layout Hc 0%Z ltac:(lia))
    as [Hok _].
  destruct Hok as [groups [Hg Hshape]]; [lia|].
  pose proof (transformLoop_flatten (layoutConsistent_sizes_nonneg Hc)
                (Z.le_refl 0) Hg) as Hflat.
  rewrite <- Hlen, Nat2Z.id in Hflat. simpl skipn in Hflat.
  rewrite firstn_all in Hflat.
  assert (Hgl : length groups = (2 * (length (networkShape self) - 1))%nat).
  { rewrite <- Hl, <- (length_map (@shape Q) groups), Hshape, length_map.
    reflexivity. }
  destruct (updateParameters self groups) as [self'|] eqn:Eu.
  2:{ unfold updateParameters, layers in Eu.
      destruct (updateLoop groups
                  (seq 1 (length (networkShape self) - 1)) (feedDict self))
        as [fd|] eqn:El; [discriminate|].
      apply updateLoop_fails_iff in El; lia. }
  exists groups, self'.
  rewrite (transformWeightVecToList_evaluatorOf intervals P).
  split; [exact Hg|]. split; [exact Eu|]. split; [exact Hflat|].
  intros i Hi.
  destruct (updateParameters_lookup_aux Eu Hi) as [HW Hb].
  destruct (@layout_nth (networkShape self)
              (length (networkShape self) - 1)%nat 1%nat (i - 1)%nat
              ltac:(lia))
    as [LW Lb].
  replace (1 + (i - 1))%nat with i in LW, Lb by lia.
  rewrite <- Hlay in LW, Lb.
  assert (SW : nth_error (map (@shape Q) groups) (2 * (i - 1)) =
               Some (WShape (networkShape self) i)).
  { rewrite Hshape, nth_error_map, LW. reflexivity. }
  assert (Sb : nth_error (map (@shape Q) groups) (2 * (i - 1) + 1) =
               Some (bShape (networkShape self) i)).
  { rewrite Hshape, nth_error_map, Lb. reflexivity. }
  rewrite nth_error_map in SW, Sb.
  destruct (nth_error groups (2 * (i - 1))) as [W|] eqn:EW; [|discriminate].
  destruct (nth_error groups (2 * (i - 1) + 1)) as [b|] eqn:Eb;
    [|discriminate].
  simpl in SW, Sb. injection SW as SW. injection Sb as Sb.
  exists W, b. repeat split; assumption.
Qed.

Lemma buildLayers_spec (ns : list Z) (ls : list nat) :
  NoDup ls ->
  forall fd fd',
    buildLayers ns ls fd = Some fd' ->
    (forall i, In i ls ->
       np_zeros (WShape ns i) = dict_get (Weights i) fd' /\
       np_zeros (bShape ns i) = dict_get (Biases i) fd' /\
       dict_get (Weights i) fd' <> None /\ dict_get (Biases i) fd' <> None) /\
    (forall k, untouched ls k -> dict_get k fd' = dict_get k fd).
Proof.
  induction 1 as [|i ls Hni Hnd IH]; intros fd fd' H; cbn [buildLayers] in H.
  - injection H as <-. split; [intros i [] | reflexivity].
  - destruct (np_zeros (WShape ns i)) as [W|] eqn:EW; [|discriminate].
    destruct (np_zeros (bShape ns i)) as [b|] eqn:Eb; [|discriminate].
    destruct (IH _ _ H) as [Hset Hkeep]. split.
    + intros j [<-|Hj].
      * rewrite (Hkeep (Weights i)), (Hkeep (Biases i)) by exact Hni.
        rewrite dict_get_set_same.
        rewrite dict_get_set_other by discriminate.
        rewrite dict_get_set_same, EW, Eb.
        repeat split; discriminate.
      * apply Hset, Hj.
    + intros k Hk. rewrite Hkeep.
      * rewrite !dict_get_set_other; [reflexivity | |];
          intros ->; simpl in Hk; apply Hk; left; reflexivity.
      * destruct k; simpl in *; auto.
Qed.

Lemma np_zeros_bShape (ns : list Z) (i : nat) :
  np_zeros (bShape ns i) <> None -> (0 <= nth i ns 0)%Z.
Proof.
  unfold np_zeros, bShape. simpl.
  destruct (Z.leb_spec 0 (nth i ns 0%Z)) as [Hle|Hlt];
    [intros _; exact Hle|].
  simpl. intros Hn. contradiction Hn. reflexivity.
Qed.

(** X23: construction succeeds only on a network shape that is not empty
    and has no negative entry; the trainer then has no cached layout and
    its feed dict holds, for every layer, a weight array and a bias array of
    zeros of the layer's shapes, and nothing for the input. *)
Theorem init_feedDict (ns : list Z) (self : t) :
  init ns = Some self ->
  ns <> [] /\
  Forall (fun d => 0 <= d)%Z ns /\
  networkShape self = ns /\
  parametersInfoList self = None /\
  dict_get InputLayer (feedDict self) = None /\
  forall i, (1 <= i < length ns)%nat ->
    dict_get (Weights i) (feedDict self) =
      Some (mkArray (WShape ns i)
              (repeat 0 (Z.to_nat (prodZ (WShape ns i))))) /\
    dict_get (Biases i) (feedDict self) =
      Some (mkArray (bShape ns i) (repeat 0 (Z.to_nat (prodZ (bShape ns i))))).
Proof.
  unfold init. intros H.
  destruct ns as [|n0 ns']; [discriminate|].
  set (ns := n0 :: ns') in *.
  destruct (Z.ltb_spec n0 0) as [|Hn0]; [discriminate|].
  destruct (buildLayers ns (layers ns) []) as [fd|] eqn:E; [|discriminate].
  injection H as <-. simpl.
  apply buildLayers_spec in E; [|apply seq_NoDup].
  destruct E as [Hset Hkeep].
  split; [discriminate|].
  split.
  { apply Forall_nth. intros i d Hi.
    rewrite (nth_indep ns d 0%Z Hi).
    destruct i as [|i]; [exact Hn0|].
    destruct (Hset (S i)) as [_ [Hb [_ Hbn]]].
    { unfold layers. apply in_seq. lia. }
    apply np_zeros_bShape. rewrite Hb. exact Hbn. }
  split; [reflexivity|]. split; [reflexivity|].
  split; [rewrite Hkeep by exact I; reflexivity|].
  intros i Hi.
  destruct (Hset i) as [HW [Hb [HWn Hbn]]].
  { unfold layers. apply in_seq. unfold ns. simpl length. lia. }
  rewrite <- HW, <- Hb in *.
  unfold np_zeros in *.
  destruct (forallb (fun d => 0 <=? d)%Z (WShape ns i)); [|contradiction].
  destruct (forallb (fun d => 0 <=? d)%Z (bShape ns i)); [|contradiction].
  split; reflexivity.
Qed.

End TrainerFacts.

(** X20 on the trainer of shape (2, 2, 1). *)
Lemma updateParameters_lookup_witness :
  exists self',
    NNFullyConTrainer.updateParameters demoTrainer demoGroups = Some self' /\
    NNFullyConTrainer.dict_get (NNFullyConTrainer.Weights 2)
      (NNFullyConTrainer.feedDict self') = Some (mkArray [2; 1]%Z [7; 8]) /\
    (forall i, (1 <= i < 3)%nat ->
       NNFullyConTrainer.dict_get (NNFullyConTrainer.Weights i)
         (NNFullyConTrainer.feedDict self') =
         nth_error demoGroups (2 * (i - 1)) /\
       NNFullyConTrainer.dict_get (NNFullyConTrainer.Biases i)
         (NNFullyConTrainer.feedDict self') =
         nth_error demoGroups (2 * (i - 1) + 1)) /\
    NNFullyConTrainer.dict_get NNFullyConTrainer.InputLayer
      (NNFullyConTrainer.feedDict self') =
      NNFullyConTrainer.dict_get NNFullyConTrainer.InputLayer
        (NNFullyConTrainer.feedDict demoTrainer) /\
    NNFullyConTrainer.networkShape self' =
      NNFullyConTrainer.networkShape demoTrainer /\
    NNFullyConTrainer.parametersInfoList self' =
      NNFullyConTrainer.parametersInfoList demoTrainer.
Proof.
  eexists. split; [reflexivity|]. split; [reflexivity|].
  apply (@TrainerFacts.updateParameters_lookup demoTrainer _ demoGroups).
  reflexivity.
Defined.

(** X21 on the trainer of shape (2, 2, 1). *)
Lemma getParametersInfoList_layout_witness :
  let r := NNFullyConTrainer.getParametersInfoList demoTrainer in
  fst r = [([2; 2], 4); ([2], 2); ([2; 1], 2); ([1], 1)]%Z /\
  layoutConsistent (fst r) = true /\
  length (fst r) = (2 * (3 - 1))%nat /\
  NNFullyConTrainer.getParametersInfoList (snd r) = r /\
  NNFullyConTrainer.feedDict (snd r) = NNFullyConTrainer.feedDict demoTrainer /\
  NNFullyConTrainer.networkShape (snd r) =
    NNFullyConTrainer.networkShape demoTrainer.
Proof.
  split; [reflexivity|].
  apply (@TrainerFacts.getParametersInfoList_layout demoTrainer).
  - reflexivity.
  - repeat constructor; discriminate.
Defined.

(** X22 on the trainer of shape (2, 2, 1) and a vector of nine. *)
Lemma trainer_accepts_reshaped_witness :
  let layout := fst (NNFullyConTrainer.getParametersInfoList demoTrainer) in
  let vec := [1; 2; 3; 4; 5; 6; 7; 8; 9] in
  exists groups self',
    NNWeightsEvaluator.transformWeightVecToList
      (evaluatorOf [] 9 layout) vec = Ok groups /\
    NNFullyConTrainer.updateParameters demoTrainer groups = Some self' /\
    flatten groups = vec /\
    forall i, (1 <= i < 3)%nat ->
      exists W b,
        NNFullyConTrainer.dict_get (NNFullyConTrainer.Weights i)
          (NNFullyConTrainer.feedDict self') = Some W /\
        shape W = NNFullyConTrainer.WShape [2; 2; 1]%Z i /\
        NNFullyConTrainer.dict_get (NNFullyConTrainer.Biases i)
          (NNFullyConTrainer.feedDict self') = Some b /\
        shape b = NNFullyConTrainer.bShape [2; 2; 1]%Z i.
Proof.
  apply (@TrainerFacts.trainer_accepts_reshaped demoTrainer [] 9
           [1; 2; 3; 4; 5; 6; 7; 8; 9]).
  - reflexivity.
  - repeat constructor; discriminate.
  - reflexivity.
Defined.

(** X23 on the network shape (2, 2, 1). *)
Lemma init_feedDict_witness :
  NNFullyConTrainer.init [2; 2; 1]%Z = Some demoTrainer /\
  [2; 2; 1]%Z <> [] /\
  Forall (fun d => 0 <= d)%Z [2; 2; 1]%Z /\
  NNFullyConTrainer.networkShape demoTrainer = [2; 2; 1]%Z /\
  NNFullyConTrainer.parametersInfoList demoTrainer = None /\
  NNFullyConTrainer.dict_get NNFullyConTrainer.InputLayer
    (NNFullyConTrainer.feedDict demoTrainer) = None /\
  forall i, (1 <= i < 3)%nat ->
    NNFullyConTrainer.dict_get (NNFullyConTrainer.Weights i)
      (NNFullyConTrainer.feedDict demoTrainer) =
      Some (mkArray (NNFullyConTrainer.WShape [2; 2; 1]%Z i)
              (repeat 0
                 (Z.to_nat (prodZ (NNFullyConTrainer.WShape [2; 2; 1]%Z i))))) /\
    NNFullyConTrainer.dict_get (NNFullyConTrainer.Biases i)
      (NNFullyConTrainer.feedDict demoTrainer) =
      Some (mkArray (NNFullyConTrainer.bShape [2; 2; 1]%Z i)
              (repeat 0
                 (Z.to_nat (prodZ (NNFullyConTrainer.bShape [2; 2; 1]%Z i))))).
Proof.
  split; [reflexivity|].
  apply (@TrainerFacts.init_feedDict [2; 2; 1]%Z demoTrainer).
  reflexivity.
Defined.
